(** * VCMTPv3 sender: retransmission subsystem

    A shallow embedding of the sender side of VCMTPv3
    ([VCMTPv3/sender/vcmtpSendv3.cpp], [senderMetadata.h],
    [RetxThreads.cpp]) and the properties of its retransmission table,
    timer, per-receiver worker and [sendProduct] entry point.

    Conventions.
    - C++ unsigned integers are [Z] values; wrap-around is written out
      with [wrap32] and [wrap16] wherever the source computes in a
      fixed width.
    - Pointers are addresses in [Z]; [NULL] is [0].  The memory owned by
      the caller of [sendProduct] is a separate [memory] argument that
      every function that dereferences a pointer takes at the time of
      the dereference.
    - A header handed to a socket carries, per field, the number that
      the field denotes in network byte order, so [htonl] and [htons]
      are the truncation to the field width.
    - A C++ exception is identified by its class; functions that may
      throw return a sum.  Copying an exception through a reference to
      [std::exception] keeps the base part only ([slice]).
    - Calls that leave the process (UDP and TCP sends, thread
      cancellation, the notifier callback) are appended to logs kept in
      the state; what the environment answers is an explicit argument. *)

From Stdlib Require Import ZArith List Bool Lia QArith.
From stdpp Require Import base gmap sets list.

Local Open Scope Z_scope.

(** ** Fixed-width arithmetic *)

Definition wrap32 (x : Z) : Z := x mod 2 ^ 32.
Definition wrap16 (x : Z) : Z := x mod 2 ^ 16.

Arguments wrap32 : simpl never.
Arguments wrap16 : simpl never.

Definition htonl (x : Z) : Z := wrap32 x.
Definition htons (x : Z) : Z := wrap16 x.
Definition ntohs (x : Z) : Z := wrap16 x.

Definition MIN (a b : Z) : Z := if a <=? b then a else b.

Definition NULL : Z := 0.

(** ** Constants of [vcmtpBase.h]

    The header that declares the payload sizes and the flag values is
    not part of the sources at hand; its constants are the fields of a
    class, with the facts the sender relies on. *)

Class VcmtpBase := {
  VCMTP_DATA_LEN : Z;
  AVAIL_BOP_LEN : Z;
  VCMTP_BOP : Z;
  VCMTP_EOP : Z;
  VCMTP_MEM_DATA : Z;
  VCMTP_RETX_REQ : Z;
  VCMTP_RETX_REJ : Z;
  VCMTP_RETX_END : Z;
  VCMTP_RETX_DATA : Z;
  VCMTP_BOP_REQ : Z;
  VCMTP_RETX_BOP : Z;
  VCMTP_EOP_REQ : Z;
  VCMTP_RETX_EOP : Z;
  data_len_pos : 0 < VCMTP_DATA_LEN;
  data_len_u16 : VCMTP_DATA_LEN < 2 ^ 16;
  avail_bop_len_range : 0 <= AVAIL_BOP_LEN <= VCMTP_DATA_LEN;
  request_flags_distinct :
    NoDup [VCMTP_RETX_REQ; VCMTP_RETX_END; VCMTP_BOP_REQ; VCMTP_EOP_REQ];
  retx_rej_u16 : 0 <= VCMTP_RETX_REJ < 2 ^ 16
}.

(** ** Clock and floating-point values

    [mcastStartTime] and [mcastEndTime] are readings of [HRclock];
    [retxTimeoutRatio] and [retxTimeoutPeriod] are C++ [float]s.  The
    operations the sender applies to them are kept abstract. *)

Class HRclock := {
  time_point : Type;
  float : Type;
  (** the value of a floating literal without fractional part *)
  float_lit : Z → float;
  (** [duration_cast<duration<double>>(t1 - t0).count()] *)
  duration_count : time_point → time_point → float;
  (** the product, as stored in a [float] *)
  float_mul : float → float → float;
  (** the time point [0.0] of the [RetxMetadata] constructor *)
  time_zero : time_point
}.

(** ** Memory of the application *)

Definition memory := Z → Byte.byte.

(** [n] bytes starting at address [p]. *)
Definition read_bytes (mem : memory) (p : Z) (n : Z) : list Byte.byte :=
  map (λ i, mem (p + Z.of_nat i)) (seq 0 (Z.to_nat n)).

(** ** senderMetadata.h *)

Section Sender.
Context `{Base : VcmtpBase} `{Clock : HRclock}.

Record RetxMetadata := mkRetxMetadata {
  prodindex : Z;
  prodLength : Z;
  metaSize : Z;
  metadata : Z;
  mcastStartTime : time_point;
  mcastEndTime : time_point;
  retxTimeoutRatio : float;
  retxTimeoutPeriod : float;
  dataprod_p : Z;
  unfinReceivers : gset Z
}.

(** The constructor [RetxMetadata::RetxMetadata()]. *)
Definition RetxMetadata_new : RetxMetadata :=
  {| prodindex := 0; prodLength := 0; metaSize := 0; metadata := NULL;
     mcastStartTime := time_zero; mcastEndTime := time_zero;
     retxTimeoutRatio := float_lit 20;
     retxTimeoutPeriod := float_lit 99999999999;
     dataprod_p := NULL; unfinReceivers := ∅ |}.

Definition set_unfinReceivers (m : RetxMetadata) (s : gset Z) : RetxMetadata :=
  {| prodindex := prodindex m; prodLength := prodLength m;
     metaSize := metaSize m; metadata := metadata m;
     mcastStartTime := mcastStartTime m; mcastEndTime := mcastEndTime m;
     retxTimeoutRatio := retxTimeoutRatio m;
     retxTimeoutPeriod := retxTimeoutPeriod m;
     dataprod_p := dataprod_p m; unfinReceivers := s |}.

Definition set_timer (m : RetxMetadata) (tend : time_point) (period : float)
  : RetxMetadata :=
  {| prodindex := prodindex m; prodLength := prodLength m;
     metaSize := metaSize m; metadata := metadata m;
     mcastStartTime := mcastStartTime m; mcastEndTime := tend;
     retxTimeoutRatio := retxTimeoutRatio m;
     retxTimeoutPeriod := period;
     dataprod_p := dataprod_p m; unfinReceivers := unfinReceivers m |}.

(** *** The retransmission table

    [indexMetaMap] of class [senderMetadata]: product index to entry. *)

(** Modelled from the spec: the member functions of [senderMetadata]
    (its implementation file is not part of the sources at hand; the
    header declares them).  [add(meta)] inserts under the key
    [meta.prodindex]. *)
Definition addRetxMetadata_map (tbl : gmap Z RetxMetadata) (ptrMeta : RetxMetadata)
  : gmap Z RetxMetadata :=
  <[prodindex ptrMeta := ptrMeta]> tbl.

(** Modelled from the spec: [get(prodindex) -> meta | none]. *)
Definition getMetadata (tbl : gmap Z RetxMetadata) (idx : Z) : option RetxMetadata :=
  tbl !! idx.

(** Modelled from the spec: [remove(prodindex) -> removed] removes the
    entry unconditionally and returns true iff it was present. *)
Definition rmRetxMetadata (tbl : gmap Z RetxMetadata) (idx : Z) : gmap Z RetxMetadata * bool :=
  match tbl !! idx with
  | Some _ => (delete idx tbl, true)
  | None => (tbl, false)
  end.

(** Modelled from the spec: [clear_unfinished(prodindex, receiver-id)]
    removes the receiver from the entry's set; if the set becomes empty
    it removes the entry from the table and returns true; otherwise it
    returns false.  Absent entries also return false. *)
Definition clearUnfinishedSet (tbl : gmap Z RetxMetadata) (idx : Z) (retxsockfd : Z)
  : gmap Z RetxMetadata * bool :=
  match tbl !! idx with
  | Some m =>
      let s := unfinReceivers m ∖ {[retxsockfd]} in
      if decide (s = ∅)
      then (delete idx tbl, true)
      else (<[idx := set_unfinReceivers m s]> tbl, false)
  | None => (tbl, false)
  end.

(** ** Exceptions, messages and the calls that leave the process *)

Inductive exn :=
| std_exception
| invalid_argument
| runtime_error
| system_error.

(** The [std::exception] part of an exception: what is left of it when
    it is copied through a reference to [std::exception], as in
    [except = e] with [const std::exception& e], in [throw e] with
    [std::exception& e], and in [throw except] for the member
    [except], which is a [std::exception]. *)
Definition slice (e : exn) : exn := std_exception.

Record VcmtpHeader := mkHeader {
  hdr_prodindex : Z;
  hdr_seqnum : Z;
  hdr_payloadlen : Z;
  hdr_flags : Z
}.

(** [BOPMsg]: product size, metadata size and the metadata bytes. *)
Record BOPMsg := mkBOPMsg {
  bop_prodsize : Z;
  bop_metasize : Z;
  bop_metadata : list Byte.byte
}.

Inductive Payload :=
| NoPayload
| DataPayload (bytes : list Byte.byte)
| BopPayload (bop : BOPMsg).

Inductive Effect :=
| UdpSend (h : VcmtpHeader) (body : Payload)
| TcpSend (sock : Z) (h : VcmtpHeader) (body : Payload)
| PthreadCancel (thread : Z)
| PthreadJoin (thread : Z)
| NotifyOfEop (idx : Z).

(** ** RetxThreads.cpp *)

Definition RetxThreads_add (threads : list Z) (thread : Z) : list Z :=
  thread :: threads.

Definition RetxThreads_remove (threads : list Z) (thread : Z) : list Z :=
  filter (λ other, other ≠ thread) threads.

(** [std::list::empty()] is the emptiness test. *)
Definition list_empty (threads : list Z) : bool :=
  match threads with [] => true | _ => false end.

(** [RetxThreads::shutdown]: one [pthread_cancel] per element, then the
    statement [(void)threads.empty();], whose value is discarded.
    Returns the calls made and the list afterwards. *)
Definition RetxThreads_shutdown (threads : list Z) : list Effect * list Z :=
  let cancels := map PthreadCancel threads in
  let _ := list_empty threads in
  (cancels, threads).

(** ** The sender object *)

(** Modelled from the spec: the delay queue [timerDelayQ] (its class is
    not part of the sources at hand).  The sender only pushes and
    disables; what [pop] returns is an input of the timer. *)
Record ProdIndexDelayQueue := mkDelayQ {
  dq_pushed : list (Z * float);
  dq_disabled : bool
}.

Definition delayQ_push (q : ProdIndexDelayQueue) (idx : Z) (seconds : float)
  : ProdIndexDelayQueue :=
  {| dq_pushed := dq_pushed q ++ [(idx, seconds)];
     dq_disabled := dq_disabled q |}.

Definition delayQ_disable (q : ProdIndexDelayQueue) : ProdIndexDelayQueue :=
  {| dq_pushed := dq_pushed q; dq_disabled := true |}.

Record vcmtpSendv3 := mkSender {
  sendMeta : gmap Z RetxMetadata;
  prodIndex : Z;
  (** the member [retxTimeoutRatio] of the sender *)
  senderRetxTimeoutRatio : float;
  (** whether the [notifier] pointer is non-null *)
  notifier : bool;
  timerDelayQ : ProdIndexDelayQueue;
  retxThreadList : list Z;
  except : exn;
  exceptIsSet : bool;
  coor_t : Z;
  timer_t : Z;
  (** every call that left the process so far, oldest first *)
  effects : list Effect
}.

Definition with_sendMeta (s : vcmtpSendv3) (t : gmap Z RetxMetadata) :=
  mkSender t (prodIndex s) (senderRetxTimeoutRatio s) (notifier s)
    (timerDelayQ s) (retxThreadList s) (except s) (exceptIsSet s)
    (coor_t s) (timer_t s) (effects s).

Definition with_prodIndex (s : vcmtpSendv3) (i : Z) :=
  mkSender (sendMeta s) i (senderRetxTimeoutRatio s) (notifier s)
    (timerDelayQ s) (retxThreadList s) (except s) (exceptIsSet s)
    (coor_t s) (timer_t s) (effects s).

Definition with_timerDelayQ (s : vcmtpSendv3) (q : ProdIndexDelayQueue) :=
  mkSender (sendMeta s) (prodIndex s) (senderRetxTimeoutRatio s) (notifier s)
    q (retxThreadList s) (except s) (exceptIsSet s)
    (coor_t s) (timer_t s) (effects s).

Definition with_retxThreadList (s : vcmtpSendv3) (l : list Z) :=
  mkSender (sendMeta s) (prodIndex s) (senderRetxTimeoutRatio s) (notifier s)
    (timerDelayQ s) l (except s) (exceptIsSet s)
    (coor_t s) (timer_t s) (effects s).

(** The assignment [except = e] of [taskExit], together with
    [exceptIsSet = true]: the member keeps the [std::exception] part
    of [e]. *)
Definition with_except (s : vcmtpSendv3) (e : exn) :=
  mkSender (sendMeta s) (prodIndex s) (senderRetxTimeoutRatio s) (notifier s)
    (timerDelayQ s) (retxThreadList s) (slice e) true
    (coor_t s) (timer_t s) (effects s).

(** Appends calls to the log. *)
Definition emit (s : vcmtpSendv3) (es : list Effect) :=
  mkSender (sendMeta s) (prodIndex s) (senderRetxTimeoutRatio s) (notifier s)
    (timerDelayQ s) (retxThreadList s) (except s) (exceptIsSet s)
    (coor_t s) (timer_t s) (effects s ++ es).

(** *** Constructors *)

Definition new_sender (initProdIndex : Z) (ratio : float) (ntf : bool)
  : vcmtpSendv3 :=
  {| sendMeta := ∅; prodIndex := initProdIndex;
     senderRetxTimeoutRatio := ratio; notifier := ntf;
     timerDelayQ := mkDelayQ [] false; retxThreadList := [];
     except := std_exception; exceptIsSet := false;
     coor_t := 0; timer_t := 0; effects := [] |}.

(** [vcmtpSendv3(tcpAddr, tcpPort, mcastAddr, mcastPort)] *)
Definition vcmtpSendv3_ctor1 : vcmtpSendv3 :=
  new_sender 0 (float_lit 500000) false.

(** [vcmtpSendv3(..., initProdIndex, notifier, ttl)] *)
Definition vcmtpSendv3_ctor2 (initProdIndex : Z) (ntf : bool) : vcmtpSendv3 :=
  new_sender initProdIndex (float_lit 500000) ntf.


(** *** Stop and taskExit *)

(** [Stop()]: disables the delay queue, cancels the coordinator, shuts
    the worker list down, joins timer and coordinator, and throws the
    member [except], a [std::exception], if an exception is recorded. *)
Definition Stop (s : vcmtpSendv3) : vcmtpSendv3 * option exn :=
  let s1 := with_timerDelayQ s (delayQ_disable (timerDelayQ s)) in
  let s2 := emit s1 [PthreadCancel (coor_t s1)] in
  let '(cancels, threads) := RetxThreads_shutdown (retxThreadList s2) in
  let s3 := emit (with_retxThreadList s2 threads) cancels in
  let s4 := emit s3 [PthreadJoin (timer_t s3); PthreadJoin (coor_t s3)] in
  (s4, if exceptIsSet s4 then Some (slice (except s4)) else None).

(** [taskExit(e)]: records [e] if no exception is recorded yet, then
    calls [Stop()]. *)
Definition taskExit (s : vcmtpSendv3) (e : exn) : vcmtpSendv3 * option exn :=
  let s1 := if exceptIsSet s then s else with_except s e in
  Stop s1.

(** ** sendProduct *)

(** What the environment answers during one call of [sendProduct]. *)
Record SendEnv := mkSendEnv {
  (** [tcpsend->getConnSockList()] *)
  env_connSockList : list Z;
  (** [HRclock::now()] in [addRetxMetadata] *)
  env_now_start : time_point;
  (** [HRclock::now()] in [setTimerParameters] *)
  env_now_end : time_point;
  (** whether the UDP send made when the log has this length fails *)
  env_udp_fails : nat → bool;
  (** whether [timerDelayQ.push] throws *)
  env_push_fails : bool
}.

(** A call of [UdpSend::SendTo] or [UdpSend::SendData]: the call is
    logged, and the environment tells whether it failed. *)
Definition udp_send (env : SendEnv) (s : vcmtpSendv3) (h : VcmtpHeader)
  (body : Payload) : vcmtpSendv3 * bool :=
  (emit s [UdpSend h body], env_udp_fails env (length (effects s))).

(** [addRetxMetadata]: builds the entry of the current product, stores
    the two pointers it was given, and inserts the entry in the table.
    The start time is written through the pointer after the insertion,
    so the entry in the table carries it. *)
Definition addRetxMetadata (s : vcmtpSendv3) (env : SendEnv)
  (data dataSize metadata_p metaSz : Z) : vcmtpSendv3 * RetxMetadata :=
  let senderProdMeta :=
    {| prodindex := prodIndex s;
       prodLength := wrap32 dataSize;
       metaSize := wrap16 metaSz;
       metadata := metadata_p;
       mcastStartTime := env_now_start env;
       mcastEndTime := mcastEndTime RetxMetadata_new;
       retxTimeoutRatio := senderRetxTimeoutRatio s;
       retxTimeoutPeriod := retxTimeoutPeriod RetxMetadata_new;
       dataprod_p := data;
       unfinReceivers :=
         foldl (λ set fd, {[fd]} ∪ set) (unfinReceivers RetxMetadata_new)
               (env_connSockList env) |} in
  (with_sendMeta s (addRetxMetadata_map (sendMeta s) senderProdMeta),
   senderProdMeta).

(** [SendBOPMessage]: a gather send of header, fixed BOP part and the
    metadata bytes found at [metadata_p]. *)
Definition SendBOPMessage (s : vcmtpSendv3) (mem : memory) (env : SendEnv)
  (prodSize metadata_p metaSz : Z) : vcmtpSendv3 * (exn + unit) :=
  let header :=
    {| hdr_prodindex := htonl (prodIndex s);
       hdr_seqnum := 0;
       hdr_payloadlen := htons (metaSz + (VCMTP_DATA_LEN - AVAIL_BOP_LEN));
       hdr_flags := htons VCMTP_BOP |} in
  let bopMsg :=
    {| bop_prodsize := htonl prodSize;
       bop_metasize := htons metaSz;
       bop_metadata := read_bytes mem metadata_p metaSz |} in
  let '(s1, failed) := udp_send env s header (BopPayload bopMsg) in
  (s1, if failed then inl system_error else inr tt).

Definition sendEOPMessage (s : vcmtpSendv3) (env : SendEnv)
  : vcmtpSendv3 * (exn + unit) :=
  let header :=
    {| hdr_prodindex := htonl (prodIndex s);
       hdr_seqnum := 0;
       hdr_payloadlen := 0;
       hdr_flags := htons VCMTP_EOP |} in
  let '(s1, failed) := udp_send env s header NoPayload in
  (s1, if failed then inl system_error else inr tt).

(** The [while (dataSize > 0)] loop of [sendData].  [None] means the
    fuel ran out before the loop ended. *)
Fixpoint sendData_loop (fuel : nat) (s : vcmtpSendv3) (mem : memory)
  (env : SendEnv) (data dataSize seqNum : Z)
  : option (vcmtpSendv3 * (exn + unit)) :=
  match fuel with
  | O => None
  | S fuel' =>
      if 0 <? dataSize then
        let payloadlen :=
          if dataSize <? VCMTP_DATA_LEN then dataSize else VCMTP_DATA_LEN in
        let header :=
          {| hdr_prodindex := htonl (prodIndex s);
             hdr_seqnum := htonl seqNum;
             hdr_payloadlen := htons payloadlen;
             hdr_flags := htons VCMTP_MEM_DATA |} in
        let '(s1, failed) :=
          udp_send env s header (DataPayload (read_bytes mem data payloadlen)) in
        if failed then Some (s1, inl runtime_error)
        else sendData_loop fuel' s1 mem env (data + payloadlen)
               (dataSize - payloadlen) (wrap32 (seqNum + payloadlen))
      else Some (s, inr tt)
  end.

Definition sendData (s : vcmtpSendv3) (mem : memory) (env : SendEnv)
  (data dataSize : Z) : option (vcmtpSendv3 * (exn + unit)) :=
  sendData_loop (S (Z.to_nat dataSize)) s mem env data dataSize 0.

(** [setTimerParameters]: the end time and the timeout period are
    written through the pointer, hence in the table's entry as well. *)
Definition setTimerParameters (s : vcmtpSendv3) (env : SendEnv)
  (senderProdMeta : RetxMetadata) : vcmtpSendv3 * RetxMetadata :=
  let mcastPeriod :=
    duration_count (mcastStartTime senderProdMeta) (env_now_end env) in
  let m :=
    set_timer senderProdMeta (env_now_end env)
      (float_mul mcastPeriod (retxTimeoutRatio senderProdMeta)) in
  (with_sendMeta s (<[prodindex m := m]> (sendMeta s)), m).

(** The argument checks at the head of [sendProduct]. *)
Definition sendProduct_check (data dataSize metadata_p metaSz : Z)
  : exn + unit :=
  if data =? NULL then inl invalid_argument
  else if 0xFFFFFFFF <? dataSize then inl invalid_argument
  else if negb (metadata_p =? NULL) then
    if AVAIL_BOP_LEN <? metaSz then inl invalid_argument else inr tt
  else
    if negb (metaSz =? 0) then inl invalid_argument else inr tt.

(** The [try] block of [sendProduct]; on success it yields the entry
    whose timeout period was pushed. *)
Definition sendProduct_try (s : vcmtpSendv3) (mem : memory) (env : SendEnv)
  (data dataSize metadata_p metaSz : Z)
  : option (vcmtpSendv3 * (exn + RetxMetadata)) :=
  match sendProduct_check data dataSize metadata_p metaSz with
  | inl e => Some (s, inl e)
  | inr _ =>
    let '(s1, senderProdMeta) :=
      addRetxMetadata s env data dataSize metadata_p metaSz in
    match SendBOPMessage s1 mem env (wrap32 dataSize) metadata_p metaSz with
    | (s2, inl e) => Some (s2, inl e)
    | (s2, inr _) =>
      match sendData s2 mem env data dataSize with
      | None => None
      | Some (s3, inl e) => Some (s3, inl e)
      | Some (s3, inr _) =>
        match sendEOPMessage s3 env with
        | (s4, inl e) => Some (s4, inl e)
        | (s4, inr _) =>
          let '(s5, m) := setTimerParameters s4 env senderProdMeta in
          if env_push_fails env then Some (s5, inl runtime_error)
          else
            Some (with_timerDelayQ s5
                    (delayQ_push (timerDelayQ s5) (prodIndex s5)
                       (retxTimeoutPeriod m)),
                  inr m)
        end
      end
    end
  end.

(** [sendProduct]: the handler passes what the [try] block threw to
    [taskExit]; what leaves the call is what [taskExit] throws, or else
    the copy that [throw e] makes through the handler's reference to
    [std::exception].  Otherwise the call returns [prodIndex++]. *)
Definition sendProduct (s : vcmtpSendv3) (mem : memory) (env : SendEnv)
  (data dataSize metadata_p metaSz : Z)
  : option (vcmtpSendv3 * (exn + Z)) :=
  match sendProduct_try s mem env data dataSize metadata_p metaSz with
  | None => None
  | Some (s1, inl e) =>
      let '(s2, thrown) := taskExit s1 e in
      Some (s2, inl (match thrown with Some e' => e' | None => slice e end))
  | Some (s1, inr _) =>
      Some (with_prodIndex s1 (wrap32 (prodIndex s1 + 1)), inr (prodIndex s1))
  end.

(** ** The per-receiver worker *)

(** A call of [TcpSend::send]: the call is logged; [tcp_ret] gives the
    value the call returns when the log has the given length. *)
Definition tcp_send (tcp_ret : nat → Z) (s : vcmtpSendv3) (sock : Z)
  (h : VcmtpHeader) (body : Payload) : vcmtpSendv3 * Z :=
  (emit s [TcpSend sock h body], tcp_ret (length (effects s))).

(** [rejRetxReq]: the value returned by the send is not looked at. *)
Definition rejRetxReq (tcp_ret : nat → Z) (s : vcmtpSendv3) (idx sock : Z)
  : vcmtpSendv3 :=
  let sendheader :=
    {| hdr_prodindex := htonl idx;
       hdr_seqnum := 0;
       hdr_payloadlen := 0;
       hdr_flags := htons VCMTP_RETX_REJ |} in
  fst (tcp_send tcp_ret s sock sendheader NoPayload).

(** The [for] loop of [retransmit].  [start] is not assigned in the
    loop, so every frame carries the same [seqnum] and is read from the
    same address; only [nbytes] and [payLen] change. *)
Fixpoint retransmit_loop (fuel : nat) (tcp_ret : nat → Z) (s : vcmtpSendv3)
  (mem : memory) (recvheader : VcmtpHeader) (retxMeta : RetxMetadata)
  (sock start nbytes payLen : Z) : option (vcmtpSendv3 * (exn + unit)) :=
  match fuel with
  | O => None
  | S fuel' =>
      if 0 <? nbytes then
        let payLen := if nbytes <? payLen then wrap16 nbytes else payLen in
        let sendheader :=
          {| hdr_prodindex := htonl (hdr_prodindex recvheader);
             hdr_seqnum := htonl start;
             hdr_payloadlen := htons payLen;
             hdr_flags := htons VCMTP_RETX_DATA |} in
        let '(s1, retval) :=
          tcp_send tcp_ret s sock sendheader
            (DataPayload (read_bytes mem (dataprod_p retxMeta + start) payLen)) in
        if retval <? 0 then Some (s1, inl runtime_error)
        else retransmit_loop fuel' tcp_ret s1 mem recvheader retxMeta
               sock start (wrap32 (nbytes - payLen)) payLen
      else Some (s, inr tt)
  end.

Definition retransmit (tcp_ret : nat → Z) (s : vcmtpSendv3) (mem : memory)
  (recvheader : VcmtpHeader) (retxMeta : RetxMetadata) (sock : Z)
  : option (vcmtpSendv3 * (exn + unit)) :=
  if 0 <? hdr_payloadlen recvheader then
    let start := hdr_seqnum recvheader in
    let out := MIN (prodLength retxMeta)
                   (wrap32 (start + hdr_payloadlen recvheader)) in
    let start := wrap32 ((start / VCMTP_DATA_LEN) * VCMTP_DATA_LEN) in
    let payLen := wrap16 VCMTP_DATA_LEN in
    let nbytes := wrap32 (out - start) in
    retransmit_loop (S (Z.to_nat nbytes)) tcp_ret s mem recvheader retxMeta
      sock start nbytes payLen
  else Some (s, inr tt).

(** [retransBOP]: the metadata bytes are copied, when the request is
    served, from the address kept in the entry. *)
Definition retransBOP (tcp_ret : nat → Z) (s : vcmtpSendv3) (mem : memory)
  (recvheader : VcmtpHeader) (retxMeta : RetxMetadata) (sock : Z)
  : vcmtpSendv3 * (exn + unit) :=
  let sendheader :=
    {| hdr_prodindex := htonl (hdr_prodindex recvheader);
       hdr_seqnum := 0;
       hdr_payloadlen :=
         htons (metaSize retxMeta + (VCMTP_DATA_LEN - AVAIL_BOP_LEN));
       hdr_flags := htons VCMTP_RETX_BOP |} in
  let bopMsg :=
    {| bop_prodsize := htonl (prodLength retxMeta);
       bop_metasize := htons (metaSize retxMeta);
       bop_metadata :=
         read_bytes mem (metadata retxMeta) (metaSize retxMeta) |} in
  let '(s1, retval) := tcp_send tcp_ret s sock sendheader (BopPayload bopMsg) in
  (s1, if retval <? 0 then inl runtime_error else inr tt).

Definition retransEOP (tcp_ret : nat → Z) (s : vcmtpSendv3)
  (recvheader : VcmtpHeader) (sock : Z) : vcmtpSendv3 * (exn + unit) :=
  let sendheader :=
    {| hdr_prodindex := htonl (hdr_prodindex recvheader);
       hdr_seqnum := 0;
       hdr_payloadlen := 0;
       hdr_flags := htons VCMTP_RETX_EOP |} in
  let '(s1, retval) := tcp_send tcp_ret s sock sendheader NoPayload in
  (s1, if retval <? 0 then inl runtime_error else inr tt).

Definition handleRetxReq (tcp_ret : nat → Z) (s : vcmtpSendv3) (mem : memory)
  (recvheader : VcmtpHeader) (retxMeta : option RetxMetadata) (sock : Z)
  : option (vcmtpSendv3 * (exn + unit)) :=
  match retxMeta with
  | Some m => retransmit tcp_ret s mem recvheader m sock
  | None => Some (rejRetxReq tcp_ret s (hdr_prodindex recvheader) sock, inr tt)
  end.

Definition handleRetxEnd (s : vcmtpSendv3) (recvheader : VcmtpHeader)
  (retxMeta : option RetxMetadata) (sock : Z) : vcmtpSendv3 :=
  match retxMeta with
  | Some _ =>
      let '(tbl, removed) :=
        clearUnfinishedSet (sendMeta s) (hdr_prodindex recvheader) sock in
      let s1 := with_sendMeta s tbl in
      if removed then
        if notifier s1 then emit s1 [NotifyOfEop (hdr_prodindex recvheader)]
        else s1
      else s1
  | None => s
  end.

Definition handleBopReq (tcp_ret : nat → Z) (s : vcmtpSendv3) (mem : memory)
  (recvheader : VcmtpHeader) (retxMeta : option RetxMetadata) (sock : Z)
  : vcmtpSendv3 * (exn + unit) :=
  match retxMeta with
  | Some m => retransBOP tcp_ret s mem recvheader m sock
  | None => (rejRetxReq tcp_ret s (hdr_prodindex recvheader) sock, inr tt)
  end.

Definition handleEopReq (tcp_ret : nat → Z) (s : vcmtpSendv3)
  (recvheader : VcmtpHeader) (retxMeta : option RetxMetadata) (sock : Z)
  : vcmtpSendv3 * (exn + unit) :=
  match retxMeta with
  | Some _ => retransEOP tcp_ret s recvheader sock
  | None => (rejRetxReq tcp_ret s (hdr_prodindex recvheader) sock, inr tt)
  end.

(** One turn of the [while(1)] loop of [RunRetxThread].  [parsed] is
    what [parseHeader] delivered, [None] when it returned a negative
    value. *)
Definition RunRetxThread_step (tcp_ret : nat → Z) (s : vcmtpSendv3)
  (mem : memory) (parsed : option VcmtpHeader) (retxsockfd : Z)
  : option (vcmtpSendv3 * (exn + unit)) :=
  match parsed with
  | None => Some (s, inl runtime_error)
  | Some recvheader =>
      let retxMeta := getMetadata (sendMeta s) (hdr_prodindex recvheader) in
      if hdr_flags recvheader =? VCMTP_RETX_REQ then
        handleRetxReq tcp_ret s mem recvheader retxMeta retxsockfd
      else if hdr_flags recvheader =? VCMTP_RETX_END then
        Some (handleRetxEnd s recvheader retxMeta retxsockfd, inr tt)
      else if hdr_flags recvheader =? VCMTP_BOP_REQ then
        Some (handleBopReq tcp_ret s mem recvheader retxMeta retxsockfd)
      else if hdr_flags recvheader =? VCMTP_EOP_REQ then
        Some (handleEopReq tcp_ret s recvheader retxMeta retxsockfd)
      else Some (s, inr tt)
  end.

(** ** The timer *)

(** One turn of the [while (1)] loop of [timerThread].  [popped] is what
    [timerDelayQ.pop()] delivered, [None] when it threw because the
    queue was disabled.  The value popped initialises a variable
    declared inside the [try] block, which hides the [prodindex]
    declared at the head of the loop body; the latter is never assigned,
    and [indeterminate] is the value it happens to hold.  The second
    component tells whether the loop goes on. *)
Definition timerThread_step (s : vcmtpSendv3) (popped : option Z)
  (indeterminate : Z) : vcmtpSendv3 * bool :=
  let prodindex := indeterminate in
  match popped with
  | None => (s, false)
  | Some prodindex_in_try =>
      let '(tbl, isRemoved) := rmRetxMetadata (sendMeta s) prodindex in
      let s1 := with_sendMeta s tbl in
      (if notifier s1 && isRemoved then emit s1 [NotifyOfEop prodindex] else s1,
       true)
  end.

End Sender.

(** ** Concrete constants, clock and memory for runs of the model *)

(** A data length of 1448 bytes and a BOP prefix of 6 bytes (the
    documentation of [sendProduct] bounds [metaSize] by 1442), with
    pairwise distinct flag values. *)
Definition base1448 : VcmtpBase :=
  {| VCMTP_DATA_LEN := 1448; AVAIL_BOP_LEN := 1442;
     VCMTP_BOP := 0x0001; VCMTP_EOP := 0x0002; VCMTP_MEM_DATA := 0x0004;
     VCMTP_RETX_REQ := 0x0008; VCMTP_RETX_REJ := 0x0010;
     VCMTP_RETX_END := 0x0020; VCMTP_RETX_DATA := 0x0040;
     VCMTP_BOP_REQ := 0x0080; VCMTP_RETX_BOP := 0x0100;
     VCMTP_EOP_REQ := 0x0200; VCMTP_RETX_EOP := 0x0400;
     data_len_pos := ltac:(lia);
     data_len_u16 := ltac:(lia);
     avail_bop_len_range := ltac:(lia);
     request_flags_distinct :=
       bool_decide_unpack (NoDup [0x0008; 0x0020; 0x0080; 0x0200]) I;
     retx_rej_u16 := ltac:(lia) |}.

(** Time points in nanoseconds, floating-point values as the rationals
    they denote. *)
Definition qclock : HRclock :=
  {| time_point := Z; float := Q; float_lit := inject_Z;
     duration_count := λ t0 t1, Qmake (t1 - t0) 1000000000;
     float_mul := Qmult; time_zero := 0 |}.

(** A memory whose byte at address [a] tells the 1448-byte block that
    [a] lies in, counted from address 4096. *)
Definition block_memory : memory :=
  λ a, match Byte.of_N (Z.to_N ((a - 4096) / 1448 mod 256)) with
       | Some b => b
       | None => Byte.x00
       end.

Definition quiet_env : @SendEnv qclock :=
  @mkSendEnv qclock [5] 0 2000000 (λ _, false) false.

(** ** Interleavings of END handling and the timer

    The table's lock makes [clearUnfinishedSet] and [rmRetxMetadata]
    atomic, so an interleaving of workers and timer is a sequence of the
    steps below.  A worker looks its entry up before it handles the
    message; the timer may run in between, so the result of that earlier
    lookup is an arbitrary argument of the step. *)

Section Interleaving.
Context `{Base : VcmtpBase} `{Clock : HRclock}.

Inductive Step :=
| WorkerEnd (recvheader : VcmtpHeader) (retxMeta : option RetxMetadata)
    (sock : Z)
| TimerPop (popped : Z) (indeterminate : Z).

Definition run_step (s : vcmtpSendv3) (ev : Step) : vcmtpSendv3 :=
  match ev with
  | WorkerEnd recvheader retxMeta sock =>
      handleRetxEnd s recvheader retxMeta sock
  | TimerPop popped indeterminate =>
      fst (timerThread_step s (Some popped) indeterminate)
  end.

Definition run (s : vcmtpSendv3) (evs : list Step) : vcmtpSendv3 :=
  foldl run_step s evs.




Definition is_tcp_send (e : Effect) : bool :=
  match e with
  | TcpSend _ _ _ => true
  | _ => false
  end.

End Interleaving.

(** ** What [sendProduct] is expected to do *)

Section SendProductSpec.
Context `{Base : VcmtpBase} `{Clock : HRclock}.

(** The four cases in which the documentation of [sendProduct] promises
    [std::invalid_argument]. *)
Definition bad_arguments (data dataSize metadata_p metaSz : Z) : Prop :=
  data = NULL ∨
  dataSize > 2 ^ 32 - 1 ∨
  (metadata_p ≠ NULL ∧ metaSz > AVAIL_BOP_LEN) ∨
  (metadata_p = NULL ∧ metaSz ≠ 0).

(** What a successful [try] block has done: every UDP send of the call
    succeeded, the push succeeded, and the entry of the product carries
    the timer parameters that were pushed. *)
Definition try_success (s : vcmtpSendv3) (env : SendEnv)
  (data dataSize metadata_p metaSz : Z) (s' : vcmtpSendv3) (m : RetxMetadata)
  : Prop :=
  env_push_fails env = false ∧
  (∀ n, (length (effects s) ≤ n < length (effects s'))%nat →
        env_udp_fails env n = false) ∧
  sendMeta s' !! prodIndex s = Some m ∧
  timerDelayQ s'
  = delayQ_push (timerDelayQ s) (prodIndex s) (retxTimeoutPeriod m) ∧
  m = set_timer (snd (addRetxMetadata s env data dataSize metadata_p metaSz))
        (env_now_end env)
        (float_mul (duration_count (env_now_start env) (env_now_end env))
                   (senderRetxTimeoutRatio s)).

End SendProductSpec.

(** ** Concrete runs *)

(** The sender after a call, for runs that start from its outcome. *)
Definition state_after `{Clock : HRclock} {A : Type} (s0 : vcmtpSendv3)
  (r : option (vcmtpSendv3 * A)) : vcmtpSendv3 :=
  match r with
  | Some (s, _) => s
  | None => s0
  end.

(** Two blocks of 1448 bytes at address 4096, multicast as product 0
    while receiver 5 is connected. *)
Definition sent_2896 : @vcmtpSendv3 qclock :=
  state_after vcmtpSendv3_ctor1
    (sendProduct (Base := base1448) vcmtpSendv3_ctor1 block_memory quiet_env
       4096 2896 0 0).

Definition retx_req_two_blocks : VcmtpHeader :=
  {| hdr_prodindex := 0; hdr_seqnum := 0; hdr_payloadlen := 2896;
     hdr_flags := 0x0008 |}.

Definition retx_data_first_block : VcmtpHeader :=
  {| hdr_prodindex := 0; hdr_seqnum := 0; hdr_payloadlen := 1448;
     hdr_flags := 0x0040 |}.

(** A sender with a notifier after the multicast of a product while
    receivers 5 and 6 were connected, and a race between their END
    messages and the timer. *)
Definition two_receivers : @SendEnv qclock :=
  @mkSendEnv qclock [5; 6] 0 2000000 (λ _, false) false.

Definition sent_to_two : @vcmtpSendv3 qclock :=
  state_after (vcmtpSendv3_ctor2 0 true)
    (sendProduct (Base := base1448) (vcmtpSendv3_ctor2 0 true) block_memory
       two_receivers 4096 3000 0 0).

Definition retx_end_0 : VcmtpHeader :=
  {| hdr_prodindex := 0; hdr_seqnum := 0; hdr_payloadlen := 0;
     hdr_flags := 0x0020 |}.


Definition retx_req_unknown : VcmtpHeader :=
  {| hdr_prodindex := 3; hdr_seqnum := 0; hdr_payloadlen := 1448;
     hdr_flags := 0x0008 |}.

(** The caller's metadata: three bytes 0x11 at address 8192 when the
    product is sent; the caller overwrites them with 0x22 afterwards. *)
Definition metadata_before : memory := λ _, Byte.x11.
Definition metadata_after : memory := λ _, Byte.x22.

Definition sent_with_metadata : @vcmtpSendv3 qclock :=
  state_after vcmtpSendv3_ctor1
    (sendProduct (Base := base1448) vcmtpSendv3_ctor1 metadata_before
       quiet_env 4096 4 8192 3).

Definition bop_req_0 : VcmtpHeader :=
  {| hdr_prodindex := 0; hdr_seqnum := 0; hdr_payloadlen := 0;
     hdr_flags := 0x0080 |}.

(** ** What goes on the wire *)

Section Wire.
Context `{Base : VcmtpBase} `{Clock : HRclock}.

(** The bytes that a logged send carries as data payload. *)
Definition frame_payload (e : Effect) : list Byte.byte :=
  match e with
  | UdpSend _ (DataPayload b) => b
  | TcpSend _ _ (DataPayload b) => b
  | _ => []
  end.

Definition is_udp_send (e : Effect) : bool :=
  match e with
  | UdpSend _ _ => true
  | _ => false
  end.

(** The MEM_DATA frames of a product of which [remaining] bytes are
    still to be sent, the next one at offset [off]: each frame carries
    the next [min remaining VCMTP_DATA_LEN] bytes and their offset. *)
Fixpoint mem_data_frames (mem : memory) (idx data off remaining : Z)
  (frames : list Effect) : Prop :=
  match frames with
  | [] => remaining = 0
  | e :: rest =>
      let len := Z.min remaining VCMTP_DATA_LEN in
      0 < remaining ∧
      e = UdpSend
            {| hdr_prodindex := htonl idx;
               hdr_seqnum := wrap32 off;
               hdr_payloadlen := len;
               hdr_flags := htons VCMTP_MEM_DATA |}
            (DataPayload (read_bytes mem (data + off) len)) ∧
      mem_data_frames mem idx data (off + len) (remaining - len) rest
  end.

(** The RETX_DATA frames that answer one request when [nbytes] bytes
    are still to be sent: each frame carries [min nbytes
    VCMTP_DATA_LEN] bytes read at [start], and the offset [start]. *)
Fixpoint retx_data_frames (mem : memory) (sock idx : Z)
  (retxMeta : RetxMetadata) (start nbytes : Z) (frames : list Effect)
  : Prop :=
  match frames with
  | [] => nbytes = 0
  | e :: rest =>
      let len := Z.min nbytes VCMTP_DATA_LEN in
      0 < nbytes ∧
      e = TcpSend sock
            {| hdr_prodindex := htonl idx;
               hdr_seqnum := htonl start;
               hdr_payloadlen := len;
               hdr_flags := htons VCMTP_RETX_DATA |}
            (DataPayload (read_bytes mem (dataprod_p retxMeta + start) len)) ∧
      retx_data_frames mem sock idx retxMeta start (nbytes - len) rest
  end.

(** An entry with its set of unfinished receivers left out: what the
    entry says about the product itself. *)
Definition without_receivers (m : RetxMetadata) : RetxMetadata :=
  set_unfinReceivers m ∅.

(** ** More entry points of the sender *)

(** [sendProduct(data, dataSize)]: the overload without metadata. *)
Definition sendProduct2 (s : vcmtpSendv3) (mem : memory) (env : SendEnv)
  (data dataSize : Z) : option (vcmtpSendv3 * (exn + Z)) :=
  sendProduct s mem env data dataSize 0 0.

(** The arguments of one call of [sendProduct], with the memory and
    the answers of the environment at the time of the call. *)
Record Call := mkCall {
  call_mem : memory;
  call_env : SendEnv;
  call_data : Z;
  call_dataSize : Z;
  call_metadata : Z;
  call_metaSize : Z
}.

(** Calls of [sendProduct] one after the other; the outcome of each. *)
Fixpoint sendProducts (s : vcmtpSendv3) (calls : list Call)
  : vcmtpSendv3 * list (exn + Z) :=
  match calls with
  | [] => (s, [])
  | c :: rest =>
      match sendProduct s (call_mem c) (call_env c) (call_data c)
              (call_dataSize c) (call_metadata c) (call_metaSize c) with
      | Some (s1, r) =>
          let '(s2, rs) := sendProducts s1 rest in (s2, r :: rs)
      | None => (s, [])
      end
  end.

(** The indices that a sequence of outcomes returned. *)
Definition returned_indices (rs : list (exn + Z)) : list Z :=
  omap (λ r, match r with inr idx => Some idx | inl _ => None end) rs.

End Wire.

(** ** More concrete runs *)

(** An environment in which the call made when the log holds two calls
    (the second data block of a first product) fails. *)
Definition second_block_fails : @SendEnv qclock :=
  @mkSendEnv qclock [5] 0 2000000 (λ n, Nat.eqb n 2) false.

(** A good call, a call with a null data pointer, and a good call. *)
Definition good_bad_good : list (@Call qclock) :=
  [@mkCall qclock block_memory quiet_env 4096 3000 0 0;
   @mkCall qclock block_memory quiet_env NULL 3000 0 0;
   @mkCall qclock block_memory quiet_env 4096 1000 0 0].

(** The entry of a product of 2896 bytes at address 4096. *)
Definition entry_2896 : @RetxMetadata qclock :=
  @mkRetxMetadata qclock 0 2896 0 NULL 0 2000000 500000%Q 1000%Q 4096 {[5]}.

Definition retx_req_second_block : VcmtpHeader :=
  {| hdr_prodindex := 0; hdr_seqnum := 1448; hdr_payloadlen := 1448;
     hdr_flags := 0x0008 |}.

Definition retx_req_beyond : VcmtpHeader :=
  {| hdr_prodindex := 0; hdr_seqnum := 4344; hdr_payloadlen := 1448;
     hdr_flags := 0x0008 |}.

Definition eop_req_0 : VcmtpHeader :=
  {| hdr_prodindex := 0; hdr_seqnum := 0; hdr_payloadlen := 0;
     hdr_flags := 0x0200 |}.

Definition end_then_timer : list (@Step qclock) :=
  [WorkerEnd retx_end_0 (Some entry_2896) 5; TimerPop 0 0].

(** The sender that multicast 3000 bytes to receivers 5 and 6, after
    receiver 5 has sent its RETX_END: the entry is still in the table,
    with receiver 6 left in its set. *)
Definition sent_to_two_after_end : @vcmtpSendv3 qclock :=
  run sent_to_two [WorkerEnd retx_end_0 (sendMeta sent_to_two !! 0) 5].

(** The same with three bytes of metadata at address 8192. *)
Definition sent_metadata_to_two : @vcmtpSendv3 qclock :=
  state_after vcmtpSendv3_ctor1
    (sendProduct (Base := base1448) vcmtpSendv3_ctor1 metadata_before
       two_receivers 4096 4 8192 3).

Definition sent_metadata_to_two_after_end : @vcmtpSendv3 qclock :=
  run sent_metadata_to_two
    [WorkerEnd retx_end_0 (sendMeta sent_metadata_to_two !! 0) 5].

(** * Properties *)

Section Properties.
Context `{Base : VcmtpBase} `{Clock : HRclock}.

(** ** Bookkeeping *)


Lemma emit_nil (s : vcmtpSendv3) : emit s [] = s.
Proof. destruct s; unfold emit; simpl. by rewrite app_nil_r. Qed.

Lemma emit_emit (s : vcmtpSendv3) (l1 l2 : list Effect) :
  emit (emit s l1) l2 = emit s (l1 ++ l2).
Proof. unfold emit; simpl. by rewrite app_assoc. Qed.

Lemma wrap32_small (x : Z) : 0 <= x < 2 ^ 32 → wrap32 x = x.
Proof. intros. unfold wrap32. by apply Z.mod_small. Qed.

Lemma wrap16_small (x : Z) : 0 <= x < 2 ^ 16 → wrap16 x = x.
Proof. intros. unfold wrap16. by apply Z.mod_small. Qed.

(** ** The worker list *)

(** C7: [RetxThreads::shutdown] cancels every thread of the list, and
    the list it leaves behind is the list it was given: the statement
    [(void)threads.empty();] asks whether the list is empty and removes
    nothing.  A list with handles still has them after [shutdown]. *)
Theorem RetxThreads_shutdown_keeps_handles :
  (∀ threads : list Z,
     RetxThreads_shutdown threads = (map PthreadCancel threads, threads)) ∧
  RetxThreads_shutdown [11; 12] =
    ([PthreadCancel 11; PthreadCancel 12], [11; 12]).
Proof. split; [intros threads|]; reflexivity. Qed.

(** ** The timer *)

(** C2: a turn of the timer loop hands to [rmRetxMetadata], and to the
    notifier, the [prodindex] declared at the head of the loop body,
    which is never assigned; the index that [pop] returned only
    initialises the variable declared inside the [try] block.  With
    entries 5 and 7 in the table, [pop] returning 5 and the outer
    variable holding 7, entry 7 is removed and notified and entry 5
    stays. *)
Theorem timerThread_step_drops_popped_index :
  ∀ (m5 m7 : RetxMetadata) (ratio : float),
    let s := with_sendMeta (new_sender 0 ratio true) (<[5 := m5]> (<[7 := m7]> ∅)) in
    let s' := fst (timerThread_step s (Some 5) 7) in
    sendMeta s' !! 5 = Some m5 ∧
    sendMeta s' !! 7 = None ∧
    effects s' = [NotifyOfEop 7].
Proof.
  intros m5 m7 ratio s s'. subst s s'.
  unfold timerThread_step, rmRetxMetadata; simpl.
  rewrite lookup_insert_ne by lia. rewrite lookup_insert_eq. simpl.
  rewrite lookup_delete_ne by lia. rewrite lookup_insert_eq.
  rewrite lookup_delete_eq. done.
Qed.

(** ** Requests for products that left the table *)

Lemma flags_distinct :
  VCMTP_RETX_REQ ≠ VCMTP_RETX_END ∧ VCMTP_RETX_REQ ≠ VCMTP_BOP_REQ ∧
  VCMTP_RETX_REQ ≠ VCMTP_EOP_REQ ∧ VCMTP_RETX_END ≠ VCMTP_BOP_REQ ∧
  VCMTP_RETX_END ≠ VCMTP_EOP_REQ ∧ VCMTP_BOP_REQ ≠ VCMTP_EOP_REQ.
Proof.
  pose proof request_flags_distinct as Hnd.
  rewrite !NoDup_cons, !not_elem_of_cons in Hnd. tauto.
Qed.

(** C6: a RETX_REQ, BOP_REQ or EOP_REQ whose product index is not in
    the table makes the worker call [TcpSend::send] exactly once, with
    a header that carries the requested index, sequence number 0,
    payload length 0 and the flag RETX_REJ, and without a body; nothing
    else of the sender changes, the table in particular, and the worker
    goes on. *)
Theorem RunRetxThread_rejects_unknown_product :
  ∀ (tcp_ret : nat → Z) (s : vcmtpSendv3) (mem : memory)
    (recvheader : VcmtpHeader) (sock : Z),
    0 <= hdr_prodindex recvheader < 2 ^ 32 →
    sendMeta s !! hdr_prodindex recvheader = None →
    hdr_flags recvheader = VCMTP_RETX_REQ ∨
    hdr_flags recvheader = VCMTP_BOP_REQ ∨
    hdr_flags recvheader = VCMTP_EOP_REQ →
    ∃ s',
      RunRetxThread_step tcp_ret s mem (Some recvheader) sock
        = Some (s', inr tt) ∧
      s' = emit s [TcpSend sock
                     {| hdr_prodindex := hdr_prodindex recvheader;
                        hdr_seqnum := 0;
                        hdr_payloadlen := 0;
                        hdr_flags := VCMTP_RETX_REJ |}
                     NoPayload] ∧
      sendMeta s' = sendMeta s.
Proof.
  intros tcp_ret s mem recvheader sock Hidx Hnone Hflags.
  destruct flags_distinct as (H1 & H2 & H3 & H4 & H5 & H6).
  eexists. split; [|split; [reflexivity|reflexivity]].
  unfold RunRetxThread_step, getMetadata. rewrite Hnone.
  unfold handleRetxReq, handleBopReq, handleEopReq, rejRetxReq, tcp_send.
  unfold htonl, htons. simpl.
  rewrite (wrap32_small _ Hidx), (wrap16_small _ retx_rej_u16).
  destruct Hflags as [-> | [-> | ->]].
  - by rewrite Z.eqb_refl.
  - rewrite (proj2 (Z.eqb_neq _ _)) by congruence.
    rewrite (proj2 (Z.eqb_neq _ _)) by congruence.
    by rewrite Z.eqb_refl.
  - rewrite (proj2 (Z.eqb_neq _ _)) by congruence.
    rewrite (proj2 (Z.eqb_neq _ _)) by congruence.
    rewrite (proj2 (Z.eqb_neq _ _)) by congruence.
    by rewrite Z.eqb_refl.
Qed.

(** C10: on a RETX_END the worker makes no call of [TcpSend::send],
    whether the entry is in the table or not: the calls it adds to the
    log are at most one [notify_of_eop].  When the entry is not in the
    table the sender is left exactly as it was: same table, no
    rejection, no notification. *)
Theorem RunRetxThread_retx_end_is_silent :
  ∀ (tcp_ret : nat → Z) (s : vcmtpSendv3) (mem : memory)
    (recvheader : VcmtpHeader) (sock : Z),
    hdr_flags recvheader = VCMTP_RETX_END →
    ∃ s' added,
      RunRetxThread_step tcp_ret s mem (Some recvheader) sock
        = Some (s', inr tt) ∧
      effects s' = effects s ++ added ∧
      List.filter is_tcp_send added = [] ∧
      (sendMeta s !! hdr_prodindex recvheader = None → s' = s).
Proof.
  intros tcp_ret s mem recvheader sock Hflag.
  destruct flags_distinct as (H1 & _).
  unfold RunRetxThread_step, getMetadata. rewrite Hflag.
  rewrite (proj2 (Z.eqb_neq _ _)) by congruence.
  rewrite Z.eqb_refl.
  unfold handleRetxEnd, clearUnfinishedSet.
  destruct (sendMeta s !! hdr_prodindex recvheader) as [m|] eqn:Hm.
  - destruct (decide (unfinReceivers m ∖ {[sock]} = ∅)) as [He|He]; simpl.
    + destruct (notifier s).
      * eexists _, [_]. split; [reflexivity|]. simpl. done.
      * eexists _, []. split; [reflexivity|]. simpl.
        by rewrite app_nil_r.
    + eexists _, []. split; [reflexivity|]. simpl. by rewrite app_nil_r.
  - exists s, []. by rewrite app_nil_r.
Qed.

(** ** At most one notification per product *)



Lemma run_step_notifier (s : vcmtpSendv3) (ev : Step) :
  notifier (run_step s ev) = notifier s.
Proof.
  destruct ev as [h [m|] sock | popped g]; simpl; try done.
  - unfold handleRetxEnd.
    destruct (clearUnfinishedSet _ _ _) as [tbl [|]]; simpl; try done.
    by destruct (notifier s) eqn:E.
  - destruct (rmRetxMetadata _ _) as [tbl [|]]; simpl;
      by destruct (notifier s) eqn:E.
Qed.







(** ** sendProduct *)

Lemma sendProduct_check_cases (data dataSize metadata_p metaSz : Z) :
  (sendProduct_check data dataSize metadata_p metaSz = inl invalid_argument ∧
   bad_arguments data dataSize metadata_p metaSz) ∨
  (sendProduct_check data dataSize metadata_p metaSz = inr tt ∧
   ¬ bad_arguments data dataSize metadata_p metaSz).
Proof.
  unfold sendProduct_check, bad_arguments.
  destruct (Z.eqb_spec data NULL); [left; tauto|].
  destruct (Z.ltb_spec 0xFFFFFFFF dataSize); [left; split; [done|lia]|].
  destruct (Z.eqb_spec metadata_p NULL); simpl.
  - destruct (Z.eqb_spec metaSz 0); simpl; [right|left]; (split; [done|lia]).
  - destruct (Z.ltb_spec AVAIL_BOP_LEN metaSz); [left|right];
      (split; [done|lia]).
Qed.

(** The data loop ends within its fuel; it only adds UDP sends to the
    log, never throws [invalid_argument], and ends normally only if no
    send failed. *)
Lemma sendData_loop_emit (mem : memory) (env : SendEnv) (fuel : nat) :
  ∀ (s : vcmtpSendv3) (data dataSize seqNum : Z),
    (Z.to_nat dataSize < fuel)%nat →
    ∃ l r,
      sendData_loop fuel s mem env data dataSize seqNum
        = Some (emit s l, r) ∧
      r ≠ inl invalid_argument ∧
      (r = inr tt →
       ∀ n, (length (effects s) ≤ n < length (effects s) + length l)%nat →
            env_udp_fails env n = false).
Proof.
  induction fuel as [|fuel IH]; intros s data dataSize seqNum Hfuel; [lia|].
  simpl. destruct (Z.ltb_spec 0 dataSize) as [Hpos|Hnpos].
  - unfold udp_send.
    destruct (env_udp_fails env (length (effects s))) eqn:Hfail.
    + eexists [_], _. split; [reflexivity|]. split; [done|done].
    + set (payloadlen :=
             if dataSize <? VCMTP_DATA_LEN then dataSize else VCMTP_DATA_LEN).
      assert (0 < payloadlen) as Hpay.
      { subst payloadlen. pose proof data_len_pos.
        destruct (Z.ltb_spec dataSize VCMTP_DATA_LEN); lia. }
      edestruct (IH (emit s [UdpSend
                       {| hdr_prodindex := htonl (prodIndex s);
                          hdr_seqnum := htonl seqNum;
                          hdr_payloadlen := htons payloadlen;
                          hdr_flags := htons VCMTP_MEM_DATA |}
                       (DataPayload (read_bytes mem data payloadlen))])
                    (data + payloadlen) (dataSize - payloadlen)
                    (wrap32 (seqNum + payloadlen)))
        as (l & r & Heq & Hr & Hok); [lia|].
      simpl in Heq. rewrite Heq. rewrite emit_emit.
      eexists _, r. split; [reflexivity|]. split; [done|].
      intros Hdone n Hn. simpl in Hn.
      destruct (decide (n = length (effects s))) as [->|Hne]; [done|].
      apply (Hok Hdone). simpl. rewrite length_app. simpl. lia.
  - exists [], (inr tt). rewrite emit_nil. split; [done|]. split; [done|].
    intros _ n Hn. simpl in Hn. lia.
Qed.

Lemma Stop_throws (s : vcmtpSendv3) :
  prodIndex (fst (Stop s)) = prodIndex s ∧
  snd (Stop s) = if exceptIsSet s then Some std_exception else None.
Proof. unfold Stop. simpl. done. Qed.

Lemma taskExit_throws (s : vcmtpSendv3) (e : exn) :
  prodIndex (fst (taskExit s e)) = prodIndex s ∧
  snd (taskExit s e) = Some std_exception.
Proof.
  unfold taskExit. destruct (exceptIsSet s) eqn:Hset.
  - destruct (Stop_throws s) as [-> ->]. by rewrite Hset.
  - destruct (Stop_throws (with_except s e)) as [-> ->]. done.
Qed.

(** Closes the case of a [try] block that threw something else than
    [invalid_argument] after the checks had passed. *)
Local Ltac try_failed :=
  split_and!; try done;
  try (split; [first [done | congruence] | tauto]).

Lemma sendProduct_try_spec (s : vcmtpSendv3) (mem : memory) (env : SendEnv)
  (data dataSize metadata_p metaSz : Z) :
  ∃ s' r,
    sendProduct_try s mem env data dataSize metadata_p metaSz = Some (s', r) ∧
    prodIndex s' = prodIndex s ∧
    exceptIsSet s' = exceptIsSet s ∧
    except s' = except s ∧
    (r = inl invalid_argument ↔
     bad_arguments data dataSize metadata_p metaSz) ∧
    (∀ m, r = inr m →
          try_success s env data dataSize metadata_p metaSz s' m).
Proof.
  unfold sendProduct_try.
  destruct (sendProduct_check_cases data dataSize metadata_p metaSz)
    as [[-> Hbad] | [-> Hgood]].
  { exists s, (inl invalid_argument). split_and!; try done. }
  unfold addRetxMetadata, SendBOPMessage, udp_send. simpl.
  destruct (env_udp_fails env (length (effects s))) eqn:Hbop.
  { eexists _, _. split; [reflexivity|]. simpl. try_failed. }
  match goal with
  | |- context [sendData ?s2 mem env data dataSize] =>
      destruct (sendData_loop_emit mem env (S (Z.to_nat dataSize))
                  s2 data dataSize 0) as (l & r & Heq & Hr & Hok); [lia|]
  end.
  unfold sendData. rewrite Heq. clear Heq.
  destruct r as [e|[]].
  { eexists _, _. split; [reflexivity|]. simpl. try_failed. }
  unfold sendEOPMessage, udp_send. simpl.
  match goal with
  | |- context [env_udp_fails env ?n] =>
      destruct (env_udp_fails env n) eqn:Heop
  end.
  { eexists _, _. split; [reflexivity|]. simpl. try_failed. }
  unfold setTimerParameters. simpl.
  destruct (env_push_fails env) eqn:Hpush.
  { eexists _, _. split; [reflexivity|]. simpl. try_failed. }
  eexists _, _. split; [reflexivity|]. simpl. split_and!; try done.
  intros m [= <-]. unfold try_success. simpl. split_and!; try done.
  - intros n Hn. rewrite !length_app in Hn. simpl in Hn.
    destruct (decide (n = length (effects s))) as [->|Hne1]; [done|].
    destruct (decide (n = (length (effects s) + 1 + length l)%nat))
      as [->|Hne2].
    { rewrite <- Heop. f_equal. rewrite !length_app. simpl. lia. }
    apply (Hok eq_refl). simpl. rewrite length_app. simpl. lia.
  - by rewrite lookup_insert_eq.
Qed.

Lemma sendProduct_success (s : vcmtpSendv3) (mem : memory) (env : SendEnv)
  (data dataSize metadata_p metaSz : Z) (s' : vcmtpSendv3) (idx : Z) :
  sendProduct s mem env data dataSize metadata_p metaSz = Some (s', inr idx) →
  ∃ s1 m,
    try_success s env data dataSize metadata_p metaSz s1 m ∧
    ¬ bad_arguments data dataSize metadata_p metaSz ∧
    idx = prodIndex s ∧
    s' = with_prodIndex s1 (wrap32 (prodIndex s + 1)).
Proof.
  unfold sendProduct.
  destruct (sendProduct_try_spec s mem env data dataSize metadata_p metaSz)
    as (s1 & r & -> & Hidx & _ & _ & Hbad & Hok).
  destruct r as [e|m].
  - destruct (taskExit s1 e). intros [=].
  - intros [= <- <-]. exists s1, m. rewrite Hidx. split_and!; try done.
    + by apply Hok.
    + intros Hb. apply Hbad in Hb. done.
Qed.

(** C3: the checks at the head of [sendProduct] throw
    [std::invalid_argument] if and only if [data] is null, or
    [dataSize] exceeds 2^32 - 1, or [metadata] is non-null and
    [metaSize] exceeds AVAIL_BOP_LEN, or [metadata] is null and
    [metaSize] is not zero.  But this is not what the caller receives:
    the handler hands the exception to [taskExit], which copies its
    [std::exception] part into the member [except], and [Stop()] throws
    that member.  So no call fails with [std::invalid_argument]: every
    call that fails, also one with bad arguments, fails with a plain
    [std::exception]; a call with a null [data] on a new sender is an
    instance. *)
Theorem sendProduct_throws_sliced_exception :
  (∀ (s : vcmtpSendv3) (mem : memory) (env : SendEnv)
     (data dataSize metadata_p metaSz : Z),
     (∃ s' r,
        sendProduct_try s mem env data dataSize metadata_p metaSz
          = Some (s', r) ∧
        (r = inl invalid_argument ↔
         bad_arguments data dataSize metadata_p metaSz)) ∧
     (∃ s' r,
        sendProduct s mem env data dataSize metadata_p metaSz
          = Some (s', r) ∧
        r ≠ inl invalid_argument ∧
        (∀ e, r = inl e → e = std_exception) ∧
        (bad_arguments data dataSize metadata_p metaSz →
         r = inl std_exception))) ∧
  ∃ s',
    sendProduct (Base := base1448) (Clock := qclock) vcmtpSendv3_ctor1
      block_memory quiet_env NULL 3000 NULL 0
    = Some (s', inl std_exception).
Proof.
  split; [|eexists; vm_compute; reflexivity].
  intros s mem env data dataSize metadata_p metaSz.
  destruct (sendProduct_try_spec s mem env data dataSize metadata_p metaSz)
    as (s1 & r & Heq & Hidx & Hset & Hexc & Hbad & Hok).
  split; [by exists s1, r|].
  unfold sendProduct. rewrite Heq.
  destruct r as [e|m].
  - destruct (taskExit_throws s1 e) as [_ Hthrown].
    destruct (taskExit s1 e) as [s2 thrown]; simpl in Hthrown.
    subst thrown. eexists _, _. split; [reflexivity|].
    split_and!; [done|by intros e' [= <-]|done].
  - eexists _, _. split; [reflexivity|].
    split_and!; [done|done|].
    intros Hb. apply Hbad in Hb. done.
Qed.

(** C4: every call of [sendProduct] ends.  A call that returns returns
    the value that [prodIndex] had on entry and leaves [prodIndex] one
    higher (modulo 2^32); in that case every UDP send of the call
    succeeded, the push succeeded, and the product is in the delay
    queue.  A call that throws leaves [prodIndex] as it was. *)
Theorem sendProduct_prodIndex :
  ∀ (s : vcmtpSendv3) (mem : memory) (env : SendEnv)
    (data dataSize metadata_p metaSz : Z),
    ∃ s' r,
      sendProduct s mem env data dataSize metadata_p metaSz = Some (s', r) ∧
      match r with
      | inr idx =>
          idx = prodIndex s ∧
          prodIndex s' = wrap32 (prodIndex s + 1) ∧
          (∀ n, (length (effects s) ≤ n < length (effects s'))%nat →
                env_udp_fails env n = false) ∧
          env_push_fails env = false ∧
          ∃ seconds,
            dq_pushed (timerDelayQ s')
            = dq_pushed (timerDelayQ s) ++ [(prodIndex s, seconds)]
      | inl _ => prodIndex s' = prodIndex s
      end.
Proof.
  intros s mem env data dataSize metadata_p metaSz.
  destruct (sendProduct s mem env data dataSize metadata_p metaSz)
    as [[s' r]|] eqn:Hcall.
  - exists s', r. split; [done|]. destruct r as [e|idx].
    + unfold sendProduct in Hcall.
      destruct (sendProduct_try_spec s mem env data dataSize metadata_p
                  metaSz) as (s1 & r & Heq & Hidx & _).
      rewrite Heq in Hcall. destruct r as [e1|m]; [|done].
      destruct (taskExit_throws s1 e1) as [Hp _].
      destruct (taskExit s1 e1) as [s2 thrown]; simpl in Hp.
      injection Hcall as <- _. congruence.
    + apply sendProduct_success in Hcall
        as (s1 & m & (Hpush & Hudp & _ & Hq & _) & _ & -> & ->).
      simpl. split_and!; try done. rewrite Hq. by eexists.
  - exfalso. unfold sendProduct in Hcall.
    destruct (sendProduct_try_spec s mem env data dataSize metadata_p
                metaSz) as (s1 & r & Heq & _).
    rewrite Heq in Hcall. destruct r; [|done].
    by destruct (taskExit s1 e).
Qed.


Lemma read_bytes_ext (mem mem' : memory) (p n : Z) :
  (∀ i, 0 <= i < n → mem' (p + i) = mem (p + i)) →
  read_bytes mem' p n = read_bytes mem p n.
Proof.
  intros Hsame. unfold read_bytes. apply map_ext_in.
  intros i Hi. apply in_seq in Hi. apply Hsame. lia.
Qed.

(** C9, as the code has it: the entry that [sendProduct] inserts keeps
    the caller's metadata pointer, not a copy of the bytes.  A BOP
    retransmission serves the [metaSize] bytes that are at that address
    when the request is served; they are the bytes of insertion time
    whenever the caller has left these [metaSize] bytes unchanged. *)
Theorem retransBOP_serves_memory_at_cached_pointer :
  ∀ (s : vcmtpSendv3) (mem : memory) (env : SendEnv)
    (data dataSize metadata_p metaSz : Z) (s' : vcmtpSendv3) (idx : Z),
    0 <= metaSz →
    metadata_p ≠ NULL →
    sendProduct s mem env data dataSize metadata_p metaSz
      = Some (s', inr idx) →
    ∃ m,
      sendMeta s' !! idx = Some m ∧
      metadata m = metadata_p ∧
      metaSize m = metaSz ∧
      ∀ (tcp_ret : nat → Z) (s2 : vcmtpSendv3) (mem' : memory)
        (recvheader : VcmtpHeader) (sock : Z),
        (∃ sendheader,
           effects (fst (retransBOP tcp_ret s2 mem' recvheader m sock))
           = effects s2 ++
             [TcpSend sock sendheader
                (BopPayload
                   {| bop_prodsize := htonl (prodLength m);
                      bop_metasize := htons metaSz;
                      bop_metadata := read_bytes mem' metadata_p metaSz |})]) ∧
        ((∀ i, 0 <= i < metaSz →
               mem' (metadata_p + i) = mem (metadata_p + i)) →
         read_bytes mem' metadata_p metaSz = read_bytes mem metadata_p metaSz).
Proof.
  intros s mem env data dataSize metadata_p metaSz s' idx Hpos Hptr Hcall.
  apply sendProduct_success in Hcall
    as (s1 & m & (_ & _ & Hm & _ & ->) & Hgood & -> & ->).
  assert (wrap16 metaSz = metaSz) as Hwrap.
  { apply wrap16_small. unfold bad_arguments in Hgood.
    pose proof avail_bop_len_range. pose proof data_len_u16. lia. }
  eexists. split; [exact Hm|]. simpl. rewrite Hwrap. split_and!; try done.
  intros tcp_ret s2 mem' recvheader sock. split.
  - eexists. unfold retransBOP, tcp_send. simpl. rewrite ?Hwrap. reflexivity.
  - apply read_bytes_ext.
Qed.

End Properties.

(** * Further properties *)

Section MoreProperties.
Context `{Base : VcmtpBase} `{Clock : HRclock}.

(** ** Reading memory *)

Lemma read_bytes_length (mem : memory) (p n : Z) :
  length (read_bytes mem p n) = Z.to_nat n.
Proof. unfold read_bytes. by rewrite length_map, length_seq. Qed.

Lemma read_bytes_app (mem : memory) (p a b : Z) :
  0 <= a → 0 <= b →
  read_bytes mem p (a + b) = read_bytes mem p a ++ read_bytes mem (p + a) b.
Proof.
  intros Ha Hb. unfold read_bytes.
  rewrite Z2Nat.inj_add, seq_app, map_app by done. f_equal.
  replace (seq (0 + Z.to_nat a) (Z.to_nat b))
    with (Nat.add (Z.to_nat a) <$> seq 0 (Z.to_nat b))
    by (rewrite fmap_add_seq; f_equal; lia).
  rewrite map_map. apply map_ext. intros i. f_equal. lia.
Qed.

(** ** The data loop *)

Lemma sendData_loop_blocks (mem : memory) (env : SendEnv) (data0 : Z)
  (fuel : nat) :
  ∀ (s s' : vcmtpSendv3) (data off remaining seqNum : Z),
    data = data0 + off →
    seqNum = wrap32 off →
    0 <= remaining →
    sendData_loop fuel s mem env data remaining seqNum = Some (s', inr tt) →
    ∃ frames,
      s' = emit s frames ∧
      mem_data_frames mem (prodIndex s) data0 off remaining frames.
Proof.
  induction fuel as [|fuel IH];
    intros s s' data off remaining seqNum -> -> Hrem Hrun; [done|].
  simpl in Hrun. destruct (Z.ltb_spec 0 remaining) as [Hpos|Hnpos].
  - unfold udp_send in Hrun.
    destruct (env_udp_fails env (length (effects s))); [done|].
    pose proof data_len_pos as Hdl. pose proof data_len_u16 as Hu16.
    assert ((if remaining <? VCMTP_DATA_LEN then remaining
             else VCMTP_DATA_LEN) = Z.min remaining VCMTP_DATA_LEN) as Hlen.
    { destruct (Z.ltb_spec remaining VCMTP_DATA_LEN); lia. }
    rewrite Hlen in Hrun. set (len := Z.min remaining VCMTP_DATA_LEN) in *.
    apply (IH _ _ _ (off + len)) in Hrun as (frames & -> & Hframes).
    + eexists (_ :: frames). rewrite emit_emit. split; [reflexivity|].
      simpl. fold len. split_and!; [done| |done].
      unfold htonl, htons. f_equal. f_equal.
      * unfold wrap32. by rewrite Z.mod_mod.
      * apply wrap16_small. lia.
    + lia.
    + unfold wrap32. by rewrite Zplus_mod_idemp_l.
    + lia.
  - injection Hrun as <-. exists []. rewrite emit_nil. split; [done|].
    simpl. lia.
Qed.

Lemma mem_data_frames_concat (mem : memory) (idx data : Z)
  (frames : list Effect) :
  ∀ off remaining,
    0 <= remaining →
    mem_data_frames mem idx data off remaining frames →
    concat (map frame_payload frames) = read_bytes mem (data + off) remaining.
Proof.
  induction frames as [|e rest IH]; intros off remaining Hrem Hframes.
  - simpl in Hframes. by subst.
  - simpl in Hframes. destruct Hframes as (Hpos & -> & Hrest).
    pose proof data_len_pos as Hdl.
    simpl.
    rewrite (IH (off + Z.min remaining VCMTP_DATA_LEN)
                (remaining - Z.min remaining VCMTP_DATA_LEN))
      by first [lia | exact Hrest].
    rewrite Z.add_assoc, <- read_bytes_app by lia. f_equal. lia.
Qed.


Lemma mem_data_frames_length (mem : memory) (idx data : Z)
  (frames : list Effect) :
  ∀ off remaining,
    0 <= remaining →
    mem_data_frames mem idx data off remaining frames →
    length frames
    = Z.to_nat ((remaining + VCMTP_DATA_LEN - 1) / VCMTP_DATA_LEN).
Proof.
  pose proof data_len_pos as Hdl.
  induction frames as [|e rest IH]; intros off remaining Hrem Hframes.
  - simpl in Hframes. subst. simpl.
    rewrite Z.div_small by lia. done.
  - simpl in Hframes. destruct Hframes as (Hpos & _ & Hrest).
    apply IH in Hrest; [|lia]. simpl. rewrite Hrest.
    destruct (Z.le_gt_cases remaining VCMTP_DATA_LEN) as [Hle|Hgt].
    + rewrite Z.min_l by lia.
      replace (remaining - remaining + VCMTP_DATA_LEN - 1)
        with (VCMTP_DATA_LEN - 1) by lia.
      rewrite Z.div_small by lia.
      assert ((remaining + VCMTP_DATA_LEN - 1) / VCMTP_DATA_LEN = 1) as ->.
      { symmetry. apply (Z.div_unique _ _ 1 (remaining - 1)); lia. }
      done.
    + rewrite Z.min_r by lia.
      replace (remaining + VCMTP_DATA_LEN - 1)
        with (remaining - VCMTP_DATA_LEN + VCMTP_DATA_LEN - 1
              + 1 * VCMTP_DATA_LEN) by lia.
      rewrite Z.div_add by lia.
      rewrite Z2Nat.inj_add; [lia| |lia].
      apply Z.div_pos; lia.
Qed.

Lemma sendData_loop_failure (mem : memory) (env : SendEnv) (fuel : nat) :
  ∀ (s s' : vcmtpSendv3) (data remaining seqNum : Z) (e : exn),
    sendData_loop fuel s mem env data remaining seqNum = Some (s', inl e) →
    e = runtime_error ∧
    ∃ frames last_frame,
      s' = emit s (frames ++ [last_frame]) ∧
      env_udp_fails env (length (effects s ++ frames)) = true ∧
      ∀ n, (length (effects s) ≤ n < length (effects s ++ frames))%nat →
           env_udp_fails env n = false.
Proof.
  induction fuel as [|fuel IH]; intros s s' data remaining seqNum e Hrun;
    [done|].
  simpl in Hrun. destruct (0 <? remaining); [|done].
  unfold udp_send in Hrun.
  destruct (env_udp_fails env (length (effects s))) eqn:Hfail.
  - injection Hrun as <- <-. split; [done|].
    eexists [], _. rewrite app_nil_r. split_and!; [done|done|].
    intros n Hn. lia.
  - apply IH in Hrun as (-> & frames & last_frame & -> & Hlast & Hbefore).
    split; [done|]. rewrite emit_emit.
    eexists (_ :: frames), last_frame. simpl in *.
    rewrite <- app_assoc in Hlast, Hbefore. simpl in *.
    split_and!; [done|done|].
    intros n Hn.
    destruct (decide (n = length (effects s))) as [->|Hne]; [done|].
    apply Hbefore. rewrite !length_app in *. simpl in *. lia.
Qed.

(** X1: when no UDP send fails, [sendData] returns after sending the
    product in blocks: one MEM_DATA frame per [VCMTP_DATA_LEN] bytes,
    the last one possibly shorter, each with the current product index
    and the offset of its bytes as sequence number; the payloads put
    end to end are the [dataSize] bytes at [data], and nothing else is
    done.  An empty product gives no frame. *)
Theorem sendData_sends_product_in_blocks :
  ∀ (s : vcmtpSendv3) (mem : memory) (env : SendEnv) (data dataSize : Z),
    0 <= dataSize →
    (∀ n, env_udp_fails env n = false) →
    ∃ frames,
      sendData s mem env data dataSize = Some (emit s frames, inr tt) ∧
      mem_data_frames mem (prodIndex s) data 0 dataSize frames ∧
      concat (map frame_payload frames) = read_bytes mem data dataSize ∧
      length frames
      = Z.to_nat ((dataSize + VCMTP_DATA_LEN - 1) / VCMTP_DATA_LEN).
Proof.
  intros s mem env data dataSize Hsize Hok. unfold sendData.
  destruct (sendData_loop_emit mem env (S (Z.to_nat dataSize)) s data
              dataSize 0) as (l & r & Hrun & _); [lia|].
  destruct r as [e|[]].
  - apply sendData_loop_failure in Hrun as (_ & ? & ? & _ & Hfail & _).
    by rewrite Hok in Hfail.
  - pose proof Hrun as Hrun'.
    apply (sendData_loop_blocks mem env data _ _ _ _ 0) in Hrun'
      as (frames & Heq & Hframes); [|lia|done|done].
    rewrite Hrun, Heq. exists frames. split_and!; [done|done| |].
    + rewrite (mem_data_frames_concat _ _ _ _ _ _ Hsize Hframes).
      f_equal. lia.
    + by apply (mem_data_frames_length _ _ _ _ _ _ Hsize Hframes).
Qed.

(** X2: [sendData] always ends.  When it throws, it throws
    [std::runtime_error], the UDP send it made last is one that failed,
    every send before it succeeded, and no further block is sent. *)
Theorem sendData_stops_at_first_failure :
  ∀ (s : vcmtpSendv3) (mem : memory) (env : SendEnv) (data dataSize : Z),
    ∃ s' r,
      sendData s mem env data dataSize = Some (s', r) ∧
      ∀ e, r = inl e →
        e = runtime_error ∧
        ∃ frames last_frame,
          s' = emit s (frames ++ [last_frame]) ∧
          env_udp_fails env (length (effects s ++ frames)) = true ∧
          ∀ n, (length (effects s) ≤ n < length (effects s ++ frames))%nat →
               env_udp_fails env n = false.
Proof.
  intros s mem env data dataSize. unfold sendData.
  destruct (sendData_loop_emit mem env (S (Z.to_nat dataSize)) s data
              dataSize 0) as (l & r & Hrun & _); [lia|].
  eexists _, _. split; [exact Hrun|].
  intros e ->. by apply sendData_loop_failure in Hrun.
Qed.

(** ** What a successful call multicasts *)

Lemma sendProduct_try_wire (s s1 : vcmtpSendv3) (mem : memory)
  (env : SendEnv) (data dataSize metadata_p metaSz : Z) (m : RetxMetadata) :
  0 <= dataSize →
  sendProduct_try s mem env data dataSize metadata_p metaSz
    = Some (s1, inr m) →
  ∃ frames,
    effects s1
    = effects s ++
      UdpSend
        {| hdr_prodindex := htonl (prodIndex s);
           hdr_seqnum := 0;
           hdr_payloadlen := htons (metaSz + (VCMTP_DATA_LEN - AVAIL_BOP_LEN));
           hdr_flags := htons VCMTP_BOP |}
        (BopPayload
           {| bop_prodsize := htonl (wrap32 dataSize);
              bop_metasize := htons metaSz;
              bop_metadata := read_bytes mem metadata_p metaSz |})
      :: frames ++
      [UdpSend
         {| hdr_prodindex := htonl (prodIndex s);
            hdr_seqnum := 0;
            hdr_payloadlen := 0;
            hdr_flags := htons VCMTP_EOP |}
         NoPayload] ∧
    mem_data_frames mem (prodIndex s) data 0 dataSize frames.
Proof.
  intros Hsize. unfold sendProduct_try.
  destruct (sendProduct_check data dataSize metadata_p metaSz); [done|].
  unfold addRetxMetadata, SendBOPMessage, udp_send. simpl.
  destruct (env_udp_fails env (length (effects s))); [done|].
  match goal with
  | |- context [sendData ?s2 mem env data dataSize] =>
      destruct (sendData s2 mem env data dataSize)
        as [[s3 [e|[]]]|] eqn:Hdata; try done
  end.
  unfold sendData in Hdata.
  apply (sendData_loop_blocks mem env data _ _ _ _ 0) in Hdata
    as (frames & -> & Hframes); [|lia|done|done].
  unfold sendEOPMessage, udp_send. simpl.
  match goal with
  | |- context [env_udp_fails env ?n] => destruct (env_udp_fails env n)
  end; [done|].
  unfold setTimerParameters. simpl.
  destruct (env_push_fails env); [done|].
  intros [= <- _]. simpl. exists frames. split; [|done].
  by rewrite <- !app_assoc.
Qed.

(** X3: a call of [sendProduct] that returns [idx] has made exactly
    these calls, in this order: one UDP send of the BOP (product size,
    metadata size and the metadata bytes), the MEM_DATA frames that
    carry the product block by block, and one UDP send of the EOP, all
    with product index [idx]; the payloads of the data frames put end
    to end are the product. *)
Theorem sendProduct_multicasts_bop_data_eop :
  ∀ (s : vcmtpSendv3) (mem : memory) (env : SendEnv)
    (data dataSize metadata_p metaSz : Z) (s' : vcmtpSendv3) (idx : Z),
    0 <= dataSize →
    sendProduct s mem env data dataSize metadata_p metaSz
      = Some (s', inr idx) →
    ∃ frames,
      effects s'
      = effects s ++
        UdpSend
          {| hdr_prodindex := htonl idx;
             hdr_seqnum := 0;
             hdr_payloadlen :=
               htons (metaSz + (VCMTP_DATA_LEN - AVAIL_BOP_LEN));
             hdr_flags := htons VCMTP_BOP |}
          (BopPayload
             {| bop_prodsize := htonl (wrap32 dataSize);
                bop_metasize := htons metaSz;
                bop_metadata := read_bytes mem metadata_p metaSz |})
        :: frames ++
        [UdpSend
           {| hdr_prodindex := htonl idx;
              hdr_seqnum := 0;
              hdr_payloadlen := 0;
              hdr_flags := htons VCMTP_EOP |}
           NoPayload] ∧
      mem_data_frames mem idx data 0 dataSize frames ∧
      concat (map frame_payload frames) = read_bytes mem data dataSize.
Proof.
  intros s mem env data dataSize metadata_p metaSz s' idx Hsize.
  unfold sendProduct.
  destruct (sendProduct_try s mem env data dataSize metadata_p metaSz)
    as [[s1 [e|m]]|] eqn:Htry; try done.
  intros [= <- <-].
  destruct (sendProduct_try_spec s mem env data dataSize metadata_p metaSz)
    as (s1' & r' & Htry' & Hidx & _).
  rewrite Htry in Htry'. injection Htry' as <- <-.
  apply sendProduct_try_wire in Htry as (frames & Heff & Hframes); [|done].
  exists frames. simpl. rewrite Hidx. split_and!; [done|done|].
  rewrite (mem_data_frames_concat _ _ _ _ _ _ Hsize Hframes).
  f_equal. lia.
Qed.


(** ** Failing calls *)

Lemma taskExit_state (s : vcmtpSendv3) (e : exn) :
  sendMeta (fst (taskExit s e)) = sendMeta s ∧
  dq_pushed (timerDelayQ (fst (taskExit s e))) = dq_pushed (timerDelayQ s) ∧
  dq_disabled (timerDelayQ (fst (taskExit s e))) = true ∧
  exceptIsSet (fst (taskExit s e)) = true ∧
  except (fst (taskExit s e))
  = (if exceptIsSet s then except s else std_exception) ∧
  retxThreadList (fst (taskExit s e)) = retxThreadList s ∧
  effects (fst (taskExit s e))
  = effects s ++
    PthreadCancel (coor_t s) :: map PthreadCancel (retxThreadList s) ++
    [PthreadJoin (timer_t s); PthreadJoin (coor_t s)].
Proof.
  unfold taskExit, Stop, RetxThreads_shutdown.
  destruct (exceptIsSet s) eqn:Hset; simpl; rewrite ?Hset;
    split_and!; try done; by rewrite <- !app_assoc.
Qed.

(** X4: a call of [sendProduct] with bad arguments touches neither the
    table nor the delay queue's content nor the counter and sends
    nothing; but it stops the sender: the delay queue is disabled, an
    exception is recorded, and the only calls made are the
    cancellations and joins of [Stop()].  What the call throws is the
    recorded member, a plain [std::exception]. *)
Theorem sendProduct_bad_arguments_stop_the_sender :
  ∀ (s : vcmtpSendv3) (mem : memory) (env : SendEnv)
    (data dataSize metadata_p metaSz : Z),
    bad_arguments data dataSize metadata_p metaSz →
    ∃ s',
      sendProduct s mem env data dataSize metadata_p metaSz
      = Some (s', inl std_exception) ∧
      sendMeta s' = sendMeta s ∧
      prodIndex s' = prodIndex s ∧
      dq_pushed (timerDelayQ s') = dq_pushed (timerDelayQ s) ∧
      dq_disabled (timerDelayQ s') = true ∧
      exceptIsSet s' = true ∧
      effects s'
      = effects s ++
        PthreadCancel (coor_t s) :: map PthreadCancel (retxThreadList s) ++
        [PthreadJoin (timer_t s); PthreadJoin (coor_t s)].
Proof.
  intros s mem env data dataSize metadata_p metaSz Hbad.
  unfold sendProduct, sendProduct_try.
  destruct (sendProduct_check_cases data dataSize metadata_p metaSz)
    as [[-> _] | [_ Hgood]]; [|done].
  destruct (taskExit_throws s invalid_argument) as [Hidx Hthrown].
  destruct (taskExit_state s invalid_argument)
    as (Htbl & Hq & Hdis & Hset & _ & _ & Heff).
  destruct (taskExit s invalid_argument) as [s' thrown]. simpl in *.
  subst thrown. exists s'. done.
Qed.

Lemma elem_of_foldl_insert (l : list Z) :
  ∀ (acc : gset Z) (fd : Z),
    fd ∈ foldl (λ set fd, {[fd]} ∪ set) acc l ↔ fd ∈ acc ∨ fd ∈ l.
Proof.
  induction l as [|x l IH]; intros acc fd; simpl.
  - rewrite elem_of_nil. tauto.
  - rewrite IH, elem_of_union, elem_of_singleton, elem_of_cons. tauto.
Qed.

(** The table and the delay queue after the [try] block, whatever its
    outcome, once the arguments passed the checks. *)
Lemma sendProduct_try_table (s : vcmtpSendv3) (mem : memory) (env : SendEnv)
  (data dataSize metadata_p metaSz : Z) :
  ¬ bad_arguments data dataSize metadata_p metaSz →
  ∃ s1 r m,
    sendProduct_try s mem env data dataSize metadata_p metaSz
      = Some (s1, r) ∧
    sendMeta s1 !! prodIndex s = Some m ∧
    (∀ q, q ≠ prodIndex s → sendMeta s1 !! q = sendMeta s !! q) ∧
    (∀ e, r = inl e → timerDelayQ s1 = timerDelayQ s) ∧
    prodindex m = prodIndex s ∧
    prodLength m = wrap32 dataSize ∧
    metaSize m = wrap16 metaSz ∧
    metadata m = metadata_p ∧
    dataprod_p m = data ∧
    retxTimeoutRatio m = senderRetxTimeoutRatio s ∧
    mcastStartTime m = env_now_start env ∧
    (∀ fd, fd ∈ unfinReceivers m ↔ fd ∈ env_connSockList env).
Proof.
  intros Hgood. unfold sendProduct_try.
  destruct (sendProduct_check_cases data dataSize metadata_p metaSz)
    as [[_ Hbad] | [-> _]]; [done|].
  assert (∀ fd, fd ∈ foldl (λ (set : gset Z) fd, {[fd]} ∪ set) ∅
                       (env_connSockList env)
                ↔ fd ∈ env_connSockList env) as Hset.
  { intros fd. rewrite elem_of_foldl_insert, elem_of_empty. tauto. }
  unfold addRetxMetadata, SendBOPMessage, udp_send, addRetxMetadata_map.
  simpl.
  destruct (env_udp_fails env (length (effects s))).
  { eexists _, _, _. split; [reflexivity|]. simpl.
    rewrite lookup_insert_eq. split_and!; try done.
    intros q Hq. by rewrite lookup_insert_ne. }
  match goal with
  | |- context [sendData ?s2 mem env data dataSize] =>
      destruct (sendData_loop_emit mem env (S (Z.to_nat dataSize))
                  s2 data dataSize 0) as (l & r & Heq & _); [lia|]
  end.
  unfold sendData. rewrite Heq. clear Heq.
  destruct r as [e|[]].
  { eexists _, _, _. split; [reflexivity|]. simpl.
    rewrite lookup_insert_eq. split_and!; try done.
    intros q Hq. by rewrite lookup_insert_ne. }
  unfold sendEOPMessage, udp_send. simpl.
  match goal with
  | |- context [env_udp_fails env ?n] => destruct (env_udp_fails env n)
  end.
  { eexists _, _, _. split; [reflexivity|]. simpl.
    rewrite lookup_insert_eq. split_and!; try done.
    intros q Hq. by rewrite lookup_insert_ne. }
  unfold setTimerParameters. simpl.
  destruct (env_push_fails env).
  { eexists _, _, _. split; [reflexivity|]. simpl.
    rewrite lookup_insert_eq. split_and!; try done.
    intros q Hq. by rewrite !lookup_insert_ne. }
  eexists _, _, _. split; [reflexivity|]. simpl.
  rewrite lookup_insert_eq. split_and!; try done.
  intros q Hq. by rewrite !lookup_insert_ne.
Qed.

(** X5: once the arguments pass the checks, [sendProduct] puts the
    entry of the product into the table (under an index that is not in
    use) before anything is sent, so the entry is there after the call
    whether the call returned or threw: under the current index, with
    the caller's two pointers and sizes, the sender's ratio, the start
    time and the receivers connected at that moment; no other entry
    changes.  When the call threw, nothing was pushed into the delay
    queue, although the entry stays. *)
Theorem sendProduct_inserts_entry_before_sending :
  ∀ (s : vcmtpSendv3) (mem : memory) (env : SendEnv)
    (data dataSize metadata_p metaSz : Z),
    sendMeta s !! prodIndex s = None →
    0 <= dataSize →
    0 <= metaSz →
    ¬ bad_arguments data dataSize metadata_p metaSz →
    ∃ s' r m,
      sendProduct s mem env data dataSize metadata_p metaSz = Some (s', r) ∧
      sendMeta s' !! prodIndex s = Some m ∧
      (∀ q, q ≠ prodIndex s → sendMeta s' !! q = sendMeta s !! q) ∧
      prodindex m = prodIndex s ∧
      prodLength m = dataSize ∧
      metaSize m = metaSz ∧
      metadata m = metadata_p ∧
      dataprod_p m = data ∧
      retxTimeoutRatio m = senderRetxTimeoutRatio s ∧
      mcastStartTime m = env_now_start env ∧
      (∀ fd, fd ∈ unfinReceivers m ↔ fd ∈ env_connSockList env) ∧
      (∀ e, r = inl e →
            dq_pushed (timerDelayQ s') = dq_pushed (timerDelayQ s)).
Proof.
  intros s mem env data dataSize metadata_p metaSz _ Hsize Hmeta Hgood.
  destruct (sendProduct_try_table s mem env data dataSize metadata_p metaSz
              Hgood)
    as (s1 & r & m & Htry & Hm & Hother & Hq & Hidx & Hlen & Hms & Hmp &
        Hdp & Hratio & Hstart & Hrecv).
  assert (wrap32 dataSize = dataSize) as Hw32.
  { apply wrap32_small. unfold bad_arguments in Hgood. lia. }
  assert (wrap16 metaSz = metaSz) as Hw16.
  { apply wrap16_small. unfold bad_arguments in Hgood.
    pose proof avail_bop_len_range. pose proof data_len_u16. unfold NULL in *.
    lia. }
  unfold sendProduct. rewrite Htry. destruct r as [e|m'].
  - destruct (taskExit_state s1 e) as (Htbl & Hpushed & _).
    destruct (taskExit s1 e) as [s2 thrown]. simpl in *.
    eexists _, _, m. split; [reflexivity|]. rewrite Htbl.
    split_and!; try done; try congruence.
    intros e' _. rewrite Hpushed. by rewrite (Hq e).
  - eexists _, _, m. split; [reflexivity|]. simpl.
    split_and!; try done; congruence.
Qed.

(** ** Successive calls *)

Lemma sendProduct_counter (s : vcmtpSendv3) (mem : memory) (env : SendEnv)
  (data dataSize metadata_p metaSz : Z) :
  ∃ s' r,
    sendProduct s mem env data dataSize metadata_p metaSz = Some (s', r) ∧
    match r with
    | inr idx => idx = prodIndex s ∧ prodIndex s' = wrap32 (prodIndex s + 1)
    | inl _ => prodIndex s' = prodIndex s
    end.
Proof.
  unfold sendProduct.
  destruct (sendProduct_try_spec s mem env data dataSize metadata_p metaSz)
    as (s1 & r & -> & Hidx & _).
  destruct r as [e|m].
  - destruct (taskExit_throws s1 e) as [Hp _].
    destruct (taskExit s1 e) as [s2 thrown]. simpl in Hp.
    eexists _, _. split; [reflexivity|]. simpl. congruence.
  - eexists _, _. split; [reflexivity|]. simpl. by rewrite Hidx.
Qed.

Lemma wrap32_range (x : Z) : 0 <= wrap32 x < 2 ^ 32.
Proof. unfold wrap32. apply Z.mod_pos_bound. lia. Qed.

Lemma wrap32_add_l (x y : Z) : wrap32 (wrap32 x + y) = wrap32 (x + y).
Proof. unfold wrap32. by rewrite Zplus_mod_idemp_l. Qed.

Lemma sendProducts_counter (calls : list Call) :
  ∀ (s : vcmtpSendv3),
    0 <= prodIndex s < 2 ^ 32 →
    length (snd (sendProducts s calls)) = length calls ∧
    returned_indices (snd (sendProducts s calls))
    = map (λ i, wrap32 (prodIndex s + Z.of_nat i))
          (seq 0 (length (returned_indices (snd (sendProducts s calls))))) ∧
    prodIndex (fst (sendProducts s calls))
    = wrap32 (prodIndex s
              + Z.of_nat (length (returned_indices
                                    (snd (sendProducts s calls))))).
Proof.
  induction calls as [|c calls IH]; intros s Hrange.
  - simpl. rewrite Z.add_0_r, wrap32_small by done. done.
  - simpl.
    destruct (sendProduct_counter s (call_mem c) (call_env c) (call_data c)
                (call_dataSize c) (call_metadata c) (call_metaSize c))
      as (s1 & r & -> & Hr).
    destruct r as [e|idx].
    + destruct (IH s1) as (Hlen & Hidx & Hfinal); [by rewrite Hr|].
      destruct (sendProducts s1 calls) as [s2 rs]. simpl in *.
      rewrite Hr in Hidx, Hfinal.
      unfold returned_indices in *. simpl. split_and!; [lia|done|done].
    + destruct Hr as [-> Hnext].
      destruct (IH s1) as (Hlen & Hidx & Hfinal);
        [rewrite Hnext; apply wrap32_range|].
      destruct (sendProducts s1 calls) as [s2 rs]. simpl in *.
      rewrite Hnext in Hidx, Hfinal.
      unfold returned_indices in *. simpl. split_and!; [lia| |].
      * rewrite Z.add_0_r, wrap32_small by done. f_equal.
        rewrite Hidx at 1.
        rewrite <- seq_shift, map_map. apply map_ext. intros i.
        rewrite wrap32_add_l. f_equal. lia.
      * rewrite Hfinal, wrap32_add_l. f_equal. lia.
Qed.

(** X6: in any sequence of calls of [sendProduct], every call ends, the
    calls that return return consecutive indices (modulo 2^32) starting
    at the initial counter, whatever failing calls lie in between, and
    the counter ends at the initial value plus the number of calls that
    returned.  As long as at most 2^32 calls returned, no index is
    handed out twice. *)
Theorem sendProducts_indices_consecutive :
  ∀ (s : vcmtpSendv3) (calls : list Call),
    0 <= prodIndex s < 2 ^ 32 →
    let rs := snd (sendProducts s calls) in
    let n := length (returned_indices rs) in
    length rs = length calls ∧
    returned_indices rs
    = map (λ i, wrap32 (prodIndex s + Z.of_nat i)) (seq 0 n) ∧
    prodIndex (fst (sendProducts s calls))
    = wrap32 (prodIndex s + Z.of_nat n) ∧
    (Z.of_nat n <= 2 ^ 32 → NoDup (returned_indices rs)).
Proof.
  intros s calls Hrange rs n.
  destruct (sendProducts_counter calls s Hrange) as (Hlen & Hidx & Hfinal).
  split_and!; try done.
  intros Hn. subst rs n. rewrite Hidx.
  apply NoDup_fmap_2_strong; [|apply NoDup_seq].
  intros i j Hi Hj Heq.
  apply elem_of_seq in Hi, Hj. unfold wrap32 in Heq.
  assert ((prodIndex s + Z.of_nat i - (prodIndex s + Z.of_nat j))
            mod 2 ^ 32 = 0) as Hdiff.
  { rewrite Zminus_mod, Heq, Z.sub_diag. done. }
  apply Z.mod_divide in Hdiff; [|lia]. destruct Hdiff as [k Hk]. nia.
Qed.

(** ** Stop and taskExit *)

(** X7: the class of the exception handed to [taskExit] is lost:
    whatever is handed in, [taskExit] records and throws a plain
    [std::exception]; from then on an exception stays recorded, a later
    [taskExit] with another exception leaves the recorded member as it
    is, and it and every later [Stop()] throw a plain [std::exception]
    again. *)
Theorem taskExit_throws_plain_exception :
  ∀ (s : vcmtpSendv3) (e1 e2 : exn),
    let s1 := fst (taskExit s e1) in
    snd (taskExit s e1) = Some std_exception ∧
    exceptIsSet s1 = true ∧
    (exceptIsSet s = false → except s1 = std_exception) ∧
    snd (taskExit s1 e2) = Some std_exception ∧
    exceptIsSet (fst (taskExit s1 e2)) = true ∧
    except (fst (taskExit s1 e2)) = except s1 ∧
    snd (Stop s1) = Some std_exception.
Proof.
  intros s e1 e2 s1. subst s1.
  destruct (taskExit_throws s e1) as [_ Hthrown].
  destruct (taskExit_state s e1) as (_ & _ & _ & Hset & Hexc & _).
  destruct (taskExit_throws (fst (taskExit s e1)) e2) as [_ Hthrown2].
  destruct (taskExit_state (fst (taskExit s e1)) e2)
    as (_ & _ & _ & Hset2 & Hexc2 & _).
  destruct (Stop_throws (fst (taskExit s e1))) as [_ Hstop].
  rewrite Hset in Hexc2, Hstop.
  split_and!; try done.
  intros Hunset. by rewrite Hexc, Hunset.
Qed.

Lemma Stop_disables (s : vcmtpSendv3) :
  fst (Stop s)
  = emit (with_timerDelayQ s (delayQ_disable (timerDelayQ s)))
      (PthreadCancel (coor_t s) :: map PthreadCancel (retxThreadList s) ++
       [PthreadJoin (timer_t s); PthreadJoin (coor_t s)]) ∧
  snd (Stop s) = if exceptIsSet s then Some std_exception else None.
Proof.
  destruct s. unfold Stop, RetxThreads_shutdown, emit. simpl.
  split; [|done]. f_equal. by rewrite <- !app_assoc.
Qed.

(** X8: [Stop()] leaves the table, the counter, the recorded exception
    and the worker list as they are and disables the delay queue.  As
    the worker list keeps its handles, a second [Stop()] cancels the
    coordinator and every worker again and joins again; apart from
    these calls it changes nothing, and it throws what the first
    threw. *)
Theorem Stop_twice_cancels_twice :
  ∀ (s : vcmtpSendv3),
    let s1 := fst (Stop s) in
    sendMeta s1 = sendMeta s ∧
    prodIndex s1 = prodIndex s ∧
    retxThreadList s1 = retxThreadList s ∧
    dq_disabled (timerDelayQ s1) = true ∧
    fst (Stop s1)
    = emit s1
        (PthreadCancel (coor_t s) :: map PthreadCancel (retxThreadList s) ++
         [PthreadJoin (timer_t s); PthreadJoin (coor_t s)]) ∧
    snd (Stop s1) = snd (Stop s).
Proof.
  intros s s1. subst s1.
  destruct (Stop_disables s) as [Heq Hthrown]. rewrite Heq.
  rewrite (proj1 (Stop_disables _)), (proj2 (Stop_disables _)), Hthrown.
  destruct s as [? ? ? ? [? ?] ?]. split_and!; reflexivity.
Qed.


(** ** The retransmission loop *)

(** The frame that the loop of [retransmit] sends when [nbytes] bytes
    are left. *)
Lemma retransmit_loop_frames (tcp_ret : nat → Z) (mem : memory)
  (recvheader : VcmtpHeader) (retxMeta : RetxMetadata) (sock start : Z)
  (fuel : nat) :
  ∀ (s : vcmtpSendv3) (nbytes payLen : Z),
    0 <= nbytes < 2 ^ 32 →
    (0 < nbytes → payLen = VCMTP_DATA_LEN) →
    (Z.to_nat nbytes < fuel)%nat →
    ∃ frames r,
      retransmit_loop fuel tcp_ret s mem recvheader retxMeta sock start
        nbytes payLen = Some (emit s frames, r) ∧
      Forall (λ e,
                ∃ len,
                  0 < len <= VCMTP_DATA_LEN ∧
                  e = TcpSend sock
                        {| hdr_prodindex := htonl (hdr_prodindex recvheader);
                           hdr_seqnum := htonl start;
                           hdr_payloadlen := len;
                           hdr_flags := htons VCMTP_RETX_DATA |}
                        (DataPayload
                           (read_bytes mem (dataprod_p retxMeta + start) len)))
             frames ∧
      (r = inr tt ∨ r = inl runtime_error) ∧
      (r = inr tt →
       retx_data_frames mem sock (hdr_prodindex recvheader) retxMeta start
         nbytes frames) ∧
      (r = inl runtime_error → ∃ n, tcp_ret n < 0) ∧
      (0 < nbytes → frames ≠ []).
Proof.
  pose proof data_len_pos as Hdl. pose proof data_len_u16 as Hu16.
  induction fuel as [|fuel IH]; intros s nbytes payLen Hrange Hpay Hfuel;
    [lia|].
  simpl. destruct (Z.ltb_spec 0 nbytes) as [Hpos|Hnpos].
  - rewrite (Hpay Hpos).
    assert ((if nbytes <? VCMTP_DATA_LEN then wrap16 nbytes
             else VCMTP_DATA_LEN) = Z.min nbytes VCMTP_DATA_LEN) as ->.
    { destruct (Z.ltb_spec nbytes VCMTP_DATA_LEN).
      - rewrite wrap16_small by lia. lia.
      - lia. }
    set (len := Z.min nbytes VCMTP_DATA_LEN).
    assert (htons len = len) as Hlen by (apply wrap16_small; lia).
    unfold tcp_send. rewrite Hlen.
    destruct (Z.ltb_spec (tcp_ret (length (effects s))) 0) as [Hneg|Hok].
    + eexists [_], _. split; [reflexivity|]. split_and!.
      * constructor; [|constructor]. exists len. split; [lia|done].
      * by right.
      * done.
      * intros _. by eexists.
      * done.
    + assert (wrap32 (nbytes - len) = nbytes - len) as ->
        by (apply wrap32_small; lia).
      edestruct (IH (emit s [TcpSend sock
                       {| hdr_prodindex := htonl (hdr_prodindex recvheader);
                          hdr_seqnum := htonl start;
                          hdr_payloadlen := len;
                          hdr_flags := htons VCMTP_RETX_DATA |}
                       (DataPayload
                          (read_bytes mem (dataprod_p retxMeta + start) len))])
                    (nbytes - len) len)
        as (frames & r & Heq & Hall & Hr & Hsucc & Hfail & _); [lia|lia|lia|].
      rewrite Heq, emit_emit. eexists (_ :: frames), r.
      split; [reflexivity|]. split_and!; try done.
      * constructor; [|done]. exists len. split; [lia|done].
      * intros Hdone. simpl. fold len. split_and!; [done|done|].
        by apply Hsucc.
  - exists [], (inr tt). rewrite emit_nil. split; [done|].
    split_and!; try done; [by left | simpl; lia | lia].
Qed.


Lemma wrap32_neg (x : Z) : - 2 ^ 32 < x < 0 → wrap32 x = x + 2 ^ 32.
Proof.
  intros Hx. unfold wrap32.
  rewrite <- (Z.mod_add x 1 (2 ^ 32)) by lia.
  apply Z.mod_small. lia.
Qed.

(** X9: a RETX_REQ that asks for bytes of one block only (from
    [seqnum], rounded down to a block boundary, up to
    [seqnum + payloadlen] or the end of the product) is answered, when
    the send succeeds, with exactly one RETX_DATA frame: it echoes the
    product index, its sequence number is the block boundary, and its
    body is the bytes of the product from that boundary to the end of
    the requested range. *)
Theorem retransmit_single_block :
  ∀ (tcp_ret : nat → Z) (s : vcmtpSendv3) (mem : memory)
    (recvheader : VcmtpHeader) (retxMeta : RetxMetadata) (sock : Z),
    let start :=
      hdr_seqnum recvheader / VCMTP_DATA_LEN * VCMTP_DATA_LEN in
    let out :=
      Z.min (prodLength retxMeta)
            (hdr_seqnum recvheader + hdr_payloadlen recvheader) in
    0 < hdr_payloadlen recvheader →
    0 <= hdr_seqnum recvheader →
    hdr_seqnum recvheader + hdr_payloadlen recvheader < 2 ^ 32 →
    start < out →
    out - start <= VCMTP_DATA_LEN →
    0 <= tcp_ret (length (effects s)) →
    retransmit tcp_ret s mem recvheader retxMeta sock
    = Some (emit s
              [TcpSend sock
                 {| hdr_prodindex := htonl (hdr_prodindex recvheader);
                    hdr_seqnum := start;
                    hdr_payloadlen := out - start;
                    hdr_flags := htons VCMTP_RETX_DATA |}
                 (DataPayload
                    (read_bytes mem (dataprod_p retxMeta + start)
                       (out - start)))],
            inr tt).
Proof.
  intros tcp_ret s mem recvheader retxMeta sock start out
    Hpl Hseq Hsum Hlt Hblock Hret.
  pose proof data_len_pos as Hdl. pose proof data_len_u16 as Hu16.
  assert (0 <= start <= hdr_seqnum recvheader) as Hstart.
  { subst start. split.
    - apply Z.mul_nonneg_nonneg; [apply Z.div_pos|]; lia.
    - rewrite Z.mul_comm. apply Z.mul_div_le. lia. }
  unfold retransmit.
  rewrite (proj2 (Z.ltb_lt _ _) Hpl).
  rewrite (wrap32_small (hdr_seqnum recvheader + hdr_payloadlen recvheader))
    by lia.
  fold start. rewrite (wrap32_small start) by lia.
  rewrite (wrap16_small VCMTP_DATA_LEN) by lia.
  assert (MIN (prodLength retxMeta)
              (hdr_seqnum recvheader + hdr_payloadlen recvheader) = out)
    as ->.
  { unfold MIN. subst out.
    destruct (Z.leb_spec (prodLength retxMeta)
                (hdr_seqnum recvheader + hdr_payloadlen recvheader)); lia. }
  rewrite (wrap32_small (out - start)) by lia.
  destruct (Z.to_nat (out - start)) as [|k] eqn:Hk; [lia|].
  cbn [retransmit_loop].
  rewrite (proj2 (Z.ltb_lt 0 (out - start))) by lia.
  assert ((if out - start <? VCMTP_DATA_LEN then wrap16 (out - start)
           else VCMTP_DATA_LEN) = out - start) as ->.
  { destruct (Z.ltb_spec (out - start) VCMTP_DATA_LEN).
    - rewrite wrap16_small by lia. done.
    - lia. }
  unfold tcp_send.
  rewrite (proj2 (Z.ltb_ge _ 0) Hret).
  rewrite Z.sub_diag, (wrap32_small 0) by lia. simpl.
  assert (htonl start = start) as ->
    by (unfold htonl; apply wrap32_small; lia).
  assert (htons (out - start) = out - start) as ->
    by (unfold htons; apply wrap16_small; lia).
  reflexivity.
Qed.


(** X11: [retransmit] does not reject a request that starts in a block
    beyond the end of the product ([prodLength] is below the block
    boundary of [seqnum]): the number of bytes to send wraps around,
    and the worker sends a RETX_DATA frame whose bytes are read at the
    block boundary, that is, wholly behind the product. *)
Theorem retransmit_reads_beyond_product :
  ∀ (tcp_ret : nat → Z) (s : vcmtpSendv3) (mem : memory)
    (recvheader : VcmtpHeader) (retxMeta : RetxMetadata) (sock : Z),
    let start :=
      hdr_seqnum recvheader / VCMTP_DATA_LEN * VCMTP_DATA_LEN in
    0 < hdr_payloadlen recvheader →
    0 <= hdr_seqnum recvheader < 2 ^ 32 →
    0 <= prodLength retxMeta < start →
    ∃ len rest r,
      0 < len <= VCMTP_DATA_LEN ∧
      retransmit tcp_ret s mem recvheader retxMeta sock
      = Some (emit s
                (TcpSend sock
                   {| hdr_prodindex := htonl (hdr_prodindex recvheader);
                      hdr_seqnum := start;
                      hdr_payloadlen := len;
                      hdr_flags := htons VCMTP_RETX_DATA |}
                   (DataPayload
                      (read_bytes mem (dataprod_p retxMeta + start) len))
                 :: rest),
              r).
Proof.
  intros tcp_ret s mem recvheader retxMeta sock start Hpl Hseq Hlen.
  pose proof data_len_pos as Hdl. pose proof data_len_u16 as Hu16.
  assert (0 <= start <= hdr_seqnum recvheader) as Hstart.
  { subst start. split.
    - apply Z.mul_nonneg_nonneg; [apply Z.div_pos|]; lia.
    - rewrite Z.mul_comm. apply Z.mul_div_le. lia. }
  unfold retransmit. rewrite (proj2 (Z.ltb_lt _ _) Hpl).
  fold start. rewrite (wrap32_small start) by lia.
  rewrite (wrap16_small VCMTP_DATA_LEN) by lia.
  set (out := MIN (prodLength retxMeta)
                  (wrap32 (hdr_seqnum recvheader
                           + hdr_payloadlen recvheader))).
  assert (0 <= out <= prodLength retxMeta) as Hout.
  { subst out. unfold MIN.
    pose proof (wrap32_range (hdr_seqnum recvheader
                              + hdr_payloadlen recvheader)).
    destruct (Z.leb_spec (prodLength retxMeta)
                (wrap32 (hdr_seqnum recvheader
                         + hdr_payloadlen recvheader))); lia. }
  assert (0 < wrap32 (out - start)) as Hn.
  { rewrite wrap32_neg by lia. lia. }
  destruct (retransmit_loop_frames tcp_ret mem recvheader retxMeta sock
              start (S (Z.to_nat (wrap32 (out - start)))) s
              (wrap32 (out - start)) VCMTP_DATA_LEN)
    as (frames & r & Heq & Hall & _ & _ & _ & Hne);
    [apply wrap32_range|done|lia|].
  destruct frames as [|f rest]; [by destruct (Hne Hn)|].
  apply Forall_cons in Hall as [(len & Hlenr & ->) _].
  exists len, rest, r. split; [done|].
  rewrite Heq. unfold htonl at 2. by rewrite (wrap32_small start) by lia.
Qed.


(** ** The worker's turn *)

(** X12: a message that is not a RETX_END never changes the table, the
    delay queue, the counter or the notifier's log: the worker's turn
    always ends, all it does is send frames on the socket the message
    came from, each echoing the product index of the message, and the
    only exception it throws is [std::runtime_error].  A message whose
    flag is none of the four known ones is dropped without any
    effect. *)
Theorem RunRetxThread_requests_only_answer :
  ∀ (tcp_ret : nat → Z) (s : vcmtpSendv3) (mem : memory)
    (recvheader : VcmtpHeader) (retxsockfd : Z),
    hdr_flags recvheader ≠ VCMTP_RETX_END →
    ∃ frames r,
      RunRetxThread_step tcp_ret s mem (Some recvheader) retxsockfd
        = Some (emit s frames, r) ∧
      Forall (λ e,
                ∃ h body,
                  e = TcpSend retxsockfd h body ∧
                  hdr_prodindex h = htonl (hdr_prodindex recvheader))
             frames ∧
      (r = inr tt ∨ r = inl runtime_error) ∧
      (hdr_flags recvheader ≠ VCMTP_RETX_REQ →
       hdr_flags recvheader ≠ VCMTP_BOP_REQ →
       hdr_flags recvheader ≠ VCMTP_EOP_REQ →
       frames = [] ∧ r = inr tt).
Proof.
  intros tcp_ret s mem recvheader retxsockfd Hend.
  unfold RunRetxThread_step.
  set (retxMeta := getMetadata (sendMeta s) (hdr_prodindex recvheader)).
  assert (∃ frames,
            rejRetxReq tcp_ret s (hdr_prodindex recvheader) retxsockfd
            = emit s frames ∧
            Forall (λ e, ∃ h body,
                      e = TcpSend retxsockfd h body ∧
                      hdr_prodindex h = htonl (hdr_prodindex recvheader))
                   frames) as (rej & Hrej & Hrejall).
  { eexists [_]. split; [reflexivity|].
    constructor; [|constructor]. by eexists _, _. }
  destruct (Z.eqb_spec (hdr_flags recvheader) VCMTP_RETX_REQ) as [Hreq|Hreq].
  { unfold handleRetxReq. destruct retxMeta as [m|].
    - destruct (retransmit_loop_frames tcp_ret mem recvheader m retxsockfd
                  (wrap32 (hdr_seqnum recvheader / VCMTP_DATA_LEN
                           * VCMTP_DATA_LEN))
                  (S (Z.to_nat (wrap32
                     (MIN (prodLength m)
                          (wrap32 (hdr_seqnum recvheader
                                   + hdr_payloadlen recvheader))
                      - wrap32 (hdr_seqnum recvheader / VCMTP_DATA_LEN
                                * VCMTP_DATA_LEN))))) s
                  (wrap32
                     (MIN (prodLength m)
                          (wrap32 (hdr_seqnum recvheader
                                   + hdr_payloadlen recvheader))
                      - wrap32 (hdr_seqnum recvheader / VCMTP_DATA_LEN
                                * VCMTP_DATA_LEN)))
                  VCMTP_DATA_LEN)
        as (frames & r & Heq & Hall & Hr & _);
        [apply wrap32_range|done|lia|].
      unfold retransmit.
      destruct (0 <? hdr_payloadlen recvheader).
      + pose proof data_len_pos. pose proof data_len_u16.
        rewrite (wrap16_small VCMTP_DATA_LEN) by lia.
        rewrite Heq. exists frames, r. split_and!; try done.
        eapply Forall_impl; [exact Hall|].
        intros e (len & _ & ->). by eexists _, _.
      + exists [], (inr tt). rewrite emit_nil.
        split_and!; try done. by left.
    - rewrite Hrej. exists rej, (inr tt). split_and!; try done. by left. }
  rewrite (proj2 (Z.eqb_neq _ _) Hend).
  destruct (Z.eqb_spec (hdr_flags recvheader) VCMTP_BOP_REQ) as [Hbop|Hbop].
  { unfold handleBopReq. destruct retxMeta as [m|].
    - unfold retransBOP, tcp_send.
      eexists [_], _. split; [reflexivity|]. split_and!; try done.
      + constructor; [|constructor]. by eexists _, _.
      + destruct (_ <? 0); [by right|by left].
    - rewrite Hrej. exists rej, (inr tt). split_and!; try done. by left. }
  destruct (Z.eqb_spec (hdr_flags recvheader) VCMTP_EOP_REQ) as [Heop|Heop].
  { unfold handleEopReq. destruct retxMeta as [m|].
    - unfold retransEOP, tcp_send.
      eexists [_], _. split; [reflexivity|]. split_and!; try done.
      + constructor; [|constructor]. by eexists _, _.
      + destruct (_ <? 0); [by right|by left].
    - rewrite Hrej. exists rej, (inr tt). split_and!; try done. by left. }
  exists [], (inr tt). rewrite emit_nil. split_and!; try done. by left.
Qed.

(** X14: an EOP_REQ for a product that is in the table is answered
    with exactly one frame: header only, flag RETX_EOP, sequence number
    and payload length 0, echoing the product index.  The worker goes
    on unless the send returned a negative value, in which case it
    throws [std::runtime_error]. *)
Theorem RunRetxThread_answers_eop_request :
  ∀ (tcp_ret : nat → Z) (s : vcmtpSendv3) (mem : memory)
    (recvheader : VcmtpHeader) (retxsockfd : Z),
    hdr_flags recvheader = VCMTP_EOP_REQ →
    is_Some (sendMeta s !! hdr_prodindex recvheader) →
    RunRetxThread_step tcp_ret s mem (Some recvheader) retxsockfd
    = Some (emit s
              [TcpSend retxsockfd
                 {| hdr_prodindex := htonl (hdr_prodindex recvheader);
                    hdr_seqnum := 0;
                    hdr_payloadlen := 0;
                    hdr_flags := htons VCMTP_RETX_EOP |}
                 NoPayload],
            if tcp_ret (length (effects s)) <? 0 then inl runtime_error
            else inr tt).
Proof.
  intros tcp_ret s mem recvheader retxsockfd Hflag [m Hm].
  destruct flags_distinct as (_ & _ & H3 & _ & H5 & H6).
  unfold RunRetxThread_step, getMetadata. rewrite Hm, Hflag.
  rewrite (proj2 (Z.eqb_neq _ _)) by congruence.
  rewrite (proj2 (Z.eqb_neq _ _)) by congruence.
  rewrite (proj2 (Z.eqb_neq _ _)) by congruence.
  rewrite Z.eqb_refl. done.
Qed.

(** ** The BOP that is retransmitted *)

Lemma sendProduct_returns_try (s : vcmtpSendv3) (mem : memory)
  (env : SendEnv) (data dataSize metadata_p metaSz : Z)
  (s' : vcmtpSendv3) (idx : Z) :
  sendProduct s mem env data dataSize metadata_p metaSz = Some (s', inr idx) →
  ∃ s1 m,
    sendProduct_try s mem env data dataSize metadata_p metaSz
      = Some (s1, inr m) ∧
    idx = prodIndex s1 ∧
    s' = with_prodIndex s1 (wrap32 (prodIndex s1 + 1)).
Proof.
  unfold sendProduct.
  destruct (sendProduct_try s mem env data dataSize metadata_p metaSz)
    as [[s1 [e|m]]|]; try done.
  intros [= <- <-]. by exists s1, m.
Qed.

Lemma without_receivers_fields (t : gmap Z RetxMetadata) (idx : Z)
  (m1 : RetxMetadata) :
  without_receivers <$> t !! idx = Some (without_receivers m1) →
  ∃ m2,
    t !! idx = Some m2 ∧
    prodLength m2 = prodLength m1 ∧
    metaSize m2 = metaSize m1 ∧
    metadata m2 = metadata m1 ∧
    dataprod_p m2 = dataprod_p m1.
Proof.
  destruct (t !! idx) as [m2|]; [|done]. simpl. intros Hsome.
  assert (without_receivers m2 = without_receivers m1) as Heq
    by congruence.
  exists m2. split; [done|].
  split_and!.
  - apply (f_equal prodLength) in Heq. exact Heq.
  - apply (f_equal metaSize) in Heq. exact Heq.
  - apply (f_equal metadata) in Heq. exact Heq.
  - apply (f_equal dataprod_p) in Heq. exact Heq.
Qed.

(** X13: the BOP that answers a BOP_REQ is the BOP that was multicast.
    After a call of [sendProduct] that returned [idx], in every later
    state whose table still has the product's entry under [idx] (its
    set of unfinished receivers may have changed) and in which the
    caller has left the metadata bytes unchanged, a BOP_REQ for [idx]
    is answered with one frame that has the payload length and the
    body (product size, metadata size, metadata bytes) of the BOP
    multicast for [idx]; only the flag differs, RETX_BOP instead of
    BOP. *)
Theorem retransBOP_repeats_multicast_bop :
  ∀ (s : vcmtpSendv3) (mem : memory) (env : SendEnv)
    (data dataSize metadata_p metaSz : Z) (s' : vcmtpSendv3) (idx : Z)
    (tcp_ret : nat → Z) (s2 : vcmtpSendv3) (mem' : memory)
    (recvheader : VcmtpHeader) (sock : Z),
    0 <= dataSize →
    0 <= metaSz →
    sendProduct s mem env data dataSize metadata_p metaSz
      = Some (s', inr idx) →
    hdr_flags recvheader = VCMTP_BOP_REQ →
    hdr_prodindex recvheader = idx →
    without_receivers <$> sendMeta s2 !! idx
    = without_receivers <$> sendMeta s' !! idx →
    (∀ i, 0 <= i < metaSz → mem' (metadata_p + i) = mem (metadata_p + i)) →
    ∃ bop_header bop r,
      UdpSend bop_header (BopPayload bop) ∈ effects s' ∧
      hdr_flags bop_header = htons VCMTP_BOP ∧
      RunRetxThread_step tcp_ret s2 mem' (Some recvheader) sock
      = Some (emit s2
                [TcpSend sock
                   {| hdr_prodindex := hdr_prodindex bop_header;
                      hdr_seqnum := hdr_seqnum bop_header;
                      hdr_payloadlen := hdr_payloadlen bop_header;
                      hdr_flags := htons VCMTP_RETX_BOP |}
                   (BopPayload bop)],
              r).
Proof.
  intros s mem env data dataSize metadata_p metaSz s' idx tcp_ret s2 mem'
    recvheader sock Hsize Hmeta Hcall Hflag Hidx Hentry Hsame.
  destruct (sendProduct_success _ _ _ _ _ _ _ _ _ Hcall)
    as (s1' & m & (_ & _ & Hm & _ & Hmeq) & Hgood & Hidx' & Hs').
  apply sendProduct_returns_try in Hcall as (s1 & m1 & Htry & -> & ->).
  destruct (sendProduct_try_spec s mem env data dataSize metadata_p metaSz)
    as (s1'' & r'' & Htry'' & Hpidx & _ & _ & _ & Hok).
  rewrite Htry in Htry''. injection Htry'' as <- <-.
  destruct (Hok m1 eq_refl) as (_ & _ & Hm1 & _ & Hm1eq).
  apply sendProduct_try_wire in Htry as (frames & Heff & _); [|done].
  assert (wrap16 metaSz = metaSz) as Hw16.
  { apply wrap16_small. unfold bad_arguments in Hgood.
    pose proof avail_bop_len_range. pose proof data_len_u16. unfold NULL in *.
    lia. }
  destruct flags_distinct as (_ & H2 & _ & H4 & _).
  simpl in Hentry. rewrite Hpidx, Hm1 in Hentry.
  apply without_receivers_fields in Hentry
    as (m2 & Hm2 & Hlen2 & Hms2 & Hmp2 & _).
  rewrite Hm1eq in Hlen2, Hms2, Hmp2. simpl in Hlen2, Hms2, Hmp2.
  eexists _, _, _. split_and!.
  - simpl. rewrite Heff. apply elem_of_app. right. apply elem_of_cons.
    left. reflexivity.
  - done.
  - unfold RunRetxThread_step, getMetadata. rewrite Hidx, Hpidx, Hm2, Hflag.
    rewrite (proj2 (Z.eqb_neq _ _)) by congruence.
    rewrite (proj2 (Z.eqb_neq _ _)) by congruence.
    rewrite Z.eqb_refl.
    unfold handleBopReq, retransBOP, tcp_send.
    rewrite Hlen2, Hms2, Hmp2, Hw16, Hidx, Hpidx.
    rewrite (read_bytes_ext mem mem' metadata_p metaSz Hsame).
    reflexivity.
Qed.

(** ** The worker list *)

(** X15: [RetxThreads::remove] takes every occurrence of the thread out
    of the list and keeps all other handles; removing a thread right
    after adding it gives the list back when the thread was not in it
    before; and a thread that was added is among the threads that
    [shutdown] cancels, first of all. *)
Theorem RetxThreads_add_then_remove :
  ∀ (threads : list Z) (thread : Z),
    (thread ∉ RetxThreads_remove threads thread) ∧
    (∀ other, other ≠ thread →
       (other ∈ RetxThreads_remove threads thread ↔ other ∈ threads)) ∧
    (thread ∉ threads →
     RetxThreads_remove (RetxThreads_add threads thread) thread = threads) ∧
    fst (RetxThreads_shutdown (RetxThreads_add threads thread))
    = PthreadCancel thread :: fst (RetxThreads_shutdown threads).
Proof.
  intros threads thread. unfold RetxThreads_remove, RetxThreads_add.
  split_and!.
  - rewrite list_elem_of_filter. tauto.
  - intros other Hne. rewrite list_elem_of_filter. tauto.
  - intros Hnotin. rewrite filter_cons_False by tauto.
    induction threads as [|t threads IH]; [done|].
    apply not_elem_of_cons in Hnotin as [Hne Hnotin].
    rewrite filter_cons_True by done. f_equal. by apply IH.
  - done.
Qed.

(** ** Senders without a notifier *)

Lemma run_step_no_notifier (s : vcmtpSendv3) (ev : Step) :
  notifier s = false → effects (run_step s ev) = effects s.
Proof.
  intros Hntf. destruct ev as [h [m|] sock | popped g]; simpl; try done.
  - unfold handleRetxEnd.
    destruct (clearUnfinishedSet _ _ _) as [tbl [|]]; simpl; try done.
    by rewrite Hntf.
  - destruct (rmRetxMetadata _ _) as [tbl removed]. simpl.
    by rewrite Hntf.
Qed.

(** X16: with a null [notifier], neither the handling of RETX_END nor
    the timer ever calls anything outside: in every interleaving of
    them the log of calls stays as it was. *)
Theorem run_without_notifier_calls_nothing :
  ∀ (s : vcmtpSendv3) (evs : list Step),
    notifier s = false →
    effects (run s evs) = effects s ∧ notifier (run s evs) = false.
Proof.
  intros s evs. revert s.
  induction evs as [|ev evs IH]; intros s Hntf; [done|].
  change (run s (ev :: evs)) with (run (run_step s ev) evs).
  destruct (IH (run_step s ev)) as [Heff Hn].
  { by rewrite run_step_notifier. }
  split; [|done]. rewrite Heff. by apply run_step_no_notifier.
Qed.

(** ** The overload without metadata *)

Lemma sendProduct_try_returns (s : vcmtpSendv3) (mem : memory)
  (env : SendEnv) (data dataSize metadata_p metaSz : Z) :
  ¬ bad_arguments data dataSize metadata_p metaSz →
  (∀ n, env_udp_fails env n = false) →
  env_push_fails env = false →
  ∃ s1 m,
    sendProduct_try s mem env data dataSize metadata_p metaSz
    = Some (s1, inr m).
Proof.
  intros Hgood Hudp Hpush. unfold sendProduct_try.
  destruct (sendProduct_check_cases data dataSize metadata_p metaSz)
    as [[_ Hbad] | [-> _]]; [done|].
  unfold addRetxMetadata, SendBOPMessage, udp_send. simpl.
  rewrite Hudp.
  match goal with
  | |- context [sendData ?s2 mem env data dataSize] =>
      destruct (sendData_loop_emit mem env (S (Z.to_nat dataSize))
                  s2 data dataSize 0) as (l & r & Heq & _); [lia|]
  end.
  unfold sendData. rewrite Heq.
  destruct r as [e|[]].
  { apply sendData_loop_failure in Heq as (_ & ? & ? & _ & Hfail & _).
    by rewrite Hudp in Hfail. }
  unfold sendEOPMessage, udp_send. simpl. rewrite Hudp.
  unfold setTimerParameters. simpl. rewrite Hpush.
  by eexists _, _.
Qed.

(** X17: [sendProduct(data, dataSize)] always ends.  It throws (a plain
    [std::exception]) whenever [data] is null or [dataSize] exceeds
    2^32 - 1.  The metadata checks can never make it fail: with a
    non-null [data] and a size in range it returns the current index
    as soon as no UDP send and no push fails.  When it returns, the BOP
    it multicast announces a metadata size of 0 and carries no metadata
    byte. *)
Theorem sendProduct2_checks_data_only :
  ∀ (s : vcmtpSendv3) (mem : memory) (env : SendEnv) (data dataSize : Z),
    0 <= dataSize →
    ∃ s' r,
      sendProduct2 s mem env data dataSize = Some (s', r) ∧
      (data = NULL ∨ dataSize > 2 ^ 32 - 1 → r = inl std_exception) ∧
      (data ≠ NULL → dataSize <= 2 ^ 32 - 1 →
       (∀ n, env_udp_fails env n = false) → env_push_fails env = false →
       r = inr (prodIndex s)) ∧
      (∀ idx, r = inr idx →
         ∃ bop_header rest,
           effects s'
           = effects s ++
             UdpSend bop_header
               (BopPayload {| bop_prodsize := htonl (wrap32 dataSize);
                              bop_metasize := 0;
                              bop_metadata := [] |})
             :: rest).
Proof.
  intros s mem env data dataSize Hsize. unfold sendProduct2.
  assert (bad_arguments data dataSize 0 0
          ↔ data = NULL ∨ dataSize > 2 ^ 32 - 1) as Hbad0.
  { unfold bad_arguments, NULL. split; [|tauto].
    intros [H|[H|[[H _]|[_ H]]]]; try tauto; done. }
  unfold sendProduct.
  destruct (sendProduct_try_spec s mem env data dataSize 0 0)
    as (s1 & r & Htry & Hidx & _ & _ & Hbad & _).
  rewrite Htry. destruct r as [e|m].
  - destruct (taskExit_throws s1 e) as [_ Hthrown].
    destruct (taskExit s1 e) as [s2 thrown]. simpl in Hthrown.
    subst thrown. eexists _, _. split; [reflexivity|].
    split_and!; [done| |done].
    intros Hnull Hrange Hudp Hpush.
    destruct (sendProduct_try_returns s mem env data dataSize 0 0)
      as (s1' & m' & Htry'); [rewrite Hbad0; lia|done|done|].
    congruence.
  - eexists _, _. split; [reflexivity|]. split_and!.
    + intros Hb. apply Hbad0, Hbad in Hb. done.
    + intros _ _ _ _. by rewrite Hidx.
    + intros idx _.
      apply sendProduct_try_wire in Htry as (frames & Heff & _); [|done].
      eexists _, _. simpl. rewrite Heff. reflexivity.
Qed.


(** ** The block that is retransmitted *)

Lemma mem_data_frames_block (mem : memory) (idx data : Z) (k : nat) :
  ∀ (frames : list Effect) (off remaining : Z),
    mem_data_frames mem idx data off remaining frames →
    Z.of_nat k * VCMTP_DATA_LEN < remaining →
    UdpSend
      {| hdr_prodindex := htonl idx;
         hdr_seqnum := wrap32 (off + Z.of_nat k * VCMTP_DATA_LEN);
         hdr_payloadlen :=
           Z.min (remaining - Z.of_nat k * VCMTP_DATA_LEN) VCMTP_DATA_LEN;
         hdr_flags := htons VCMTP_MEM_DATA |}
      (DataPayload
         (read_bytes mem (data + (off + Z.of_nat k * VCMTP_DATA_LEN))
            (Z.min (remaining - Z.of_nat k * VCMTP_DATA_LEN)
                   VCMTP_DATA_LEN)))
    ∈ frames.
Proof.
  pose proof data_len_pos as Hdl.
  induction k as [|k IH]; intros frames off remaining Hframes Hk.
  - destruct frames as [|e rest]; simpl in Hframes; [lia|].
    destruct Hframes as (_ & -> & _).
    apply elem_of_cons. left.
    rewrite !Z.mul_0_l, !Z.add_0_r, !Z.sub_0_r. done.
  - destruct frames as [|e rest]; simpl in Hframes; [lia|].
    destruct Hframes as (_ & _ & Hrest).
    rewrite Z.min_r in Hrest by lia.
    assert (Z.of_nat k * VCMTP_DATA_LEN < remaining - VCMTP_DATA_LEN)
      as Hk' by lia.
    pose proof (IH _ _ _ Hrest Hk') as Hin.
    apply elem_of_cons. right.
    replace (off + Z.of_nat (S k) * VCMTP_DATA_LEN)
      with (off + VCMTP_DATA_LEN + Z.of_nat k * VCMTP_DATA_LEN) by lia.
    replace (remaining - Z.of_nat (S k) * VCMTP_DATA_LEN)
      with (remaining - VCMTP_DATA_LEN - Z.of_nat k * VCMTP_DATA_LEN) by lia.
    done.
Qed.

Lemma retx_data_frames_one_block (mem : memory) (sock idx : Z)
  (retxMeta : RetxMetadata) (start nbytes : Z) (frames : list Effect) :
  0 < nbytes <= VCMTP_DATA_LEN →
  retx_data_frames mem sock idx retxMeta start nbytes frames →
  frames
  = [TcpSend sock
       {| hdr_prodindex := htonl idx;
          hdr_seqnum := htonl start;
          hdr_payloadlen := nbytes;
          hdr_flags := htons VCMTP_RETX_DATA |}
       (DataPayload (read_bytes mem (dataprod_p retxMeta + start) nbytes))].
Proof.
  intros Hn Hframes. destruct frames as [|e rest]; simpl in Hframes; [lia|].
  destruct Hframes as (_ & -> & Hrest).
  rewrite Z.min_l in * by lia.
  destruct rest as [|e' rest']; simpl in Hrest; [done|lia].
Qed.

(** X18: the block that answers a RETX_REQ is the block that was
    multicast.  After a call of [sendProduct] that returned [idx], in
    every later state whose table still has the product's entry under
    [idx] (its set of unfinished receivers may have changed), when the
    caller has left the product bytes unchanged and no send fails, a
    RETX_REQ for block [k] of [idx] (sequence number
    [k * VCMTP_DATA_LEN], the length of that block) is answered with
    exactly one RETX_DATA frame that has the product index, sequence
    number, payload length and bytes of the MEM_DATA frame multicast
    for that block. *)
Theorem retransmit_repeats_multicast_block :
  ∀ (s : vcmtpSendv3) (mem : memory) (env : SendEnv)
    (data dataSize metadata_p metaSz : Z) (s' : vcmtpSendv3) (idx : Z)
    (tcp_ret : nat → Z) (s2 : vcmtpSendv3) (mem' : memory)
    (recvheader : VcmtpHeader) (sock : Z) (k : nat),
    0 <= dataSize →
    sendProduct s mem env data dataSize metadata_p metaSz
      = Some (s', inr idx) →
    Z.of_nat k * VCMTP_DATA_LEN < dataSize →
    hdr_flags recvheader = VCMTP_RETX_REQ →
    hdr_prodindex recvheader = idx →
    hdr_seqnum recvheader = Z.of_nat k * VCMTP_DATA_LEN →
    hdr_payloadlen recvheader
    = Z.min (dataSize - Z.of_nat k * VCMTP_DATA_LEN) VCMTP_DATA_LEN →
    without_receivers <$> sendMeta s2 !! idx
    = without_receivers <$> sendMeta s' !! idx →
    (∀ i, 0 <= i < dataSize → mem' (data + i) = mem (data + i)) →
    (∀ n, 0 <= tcp_ret n) →
    ∃ data_header bytes,
      UdpSend data_header (DataPayload bytes) ∈ effects s' ∧
      hdr_flags data_header = htons VCMTP_MEM_DATA ∧
      RunRetxThread_step tcp_ret s2 mem' (Some recvheader) sock
      = Some (emit s2
                [TcpSend sock
                   {| hdr_prodindex := hdr_prodindex data_header;
                      hdr_seqnum := hdr_seqnum data_header;
                      hdr_payloadlen := hdr_payloadlen data_header;
                      hdr_flags := htons VCMTP_RETX_DATA |}
                   (DataPayload bytes)],
              inr tt).
Proof.
  intros s mem env data dataSize metadata_p metaSz s' idx tcp_ret s2 mem'
    recvheader sock k Hsize Hcall Hk Hflag Hidx Hseq Hpl Hentry Hsame Hret.
  pose proof data_len_pos as Hdl. pose proof data_len_u16 as Hu16.
  destruct (sendProduct_success _ _ _ _ _ _ _ _ _ Hcall)
    as (_ & _ & _ & Hgood & _ & _).
  assert (dataSize < 2 ^ 32) as Hsize32
    by (unfold bad_arguments in Hgood; lia).
  apply sendProduct_returns_try in Hcall as (s1 & m1 & Htry & -> & ->).
  destruct (sendProduct_try_spec s mem env data dataSize metadata_p metaSz)
    as (s1'' & r'' & Htry'' & Hpidx & _ & _ & _ & Hok).
  rewrite Htry in Htry''. injection Htry'' as <- <-.
  destruct (Hok m1 eq_refl) as (_ & _ & Hm1 & _ & Hm1eq).
  apply sendProduct_try_wire in Htry as (frames & Heff & Hframes); [|done].
  pose proof (mem_data_frames_block mem (prodIndex s) data k frames 0 dataSize
                Hframes Hk) as Hin.
  rewrite Z.add_0_l in Hin.
  set (off := Z.of_nat k * VCMTP_DATA_LEN) in *.
  set (len := Z.min (dataSize - off) VCMTP_DATA_LEN) in *.
  assert (0 <= off) as Hoff by (subst off; lia).
  simpl in Hentry. rewrite Hpidx, Hm1 in Hentry.
  apply without_receivers_fields in Hentry
    as (m2 & Hm2 & Hlen2 & _ & _ & Hdp2).
  rewrite Hm1eq in Hlen2, Hdp2. simpl in Hlen2, Hdp2.
  eexists _, _. split_and!.
  - simpl. rewrite Heff. apply elem_of_app. right. apply elem_of_cons.
    right. apply elem_of_app. left. exact Hin.
  - done.
  - unfold RunRetxThread_step, getMetadata.
    rewrite Hidx, Hpidx, Hm2, Hflag, Z.eqb_refl.
    unfold handleRetxReq.
    destruct (retransmit_loop_frames tcp_ret mem' recvheader m2 sock off
                (S (Z.to_nat len)) s2 len VCMTP_DATA_LEN)
      as (tframes & r & Heq & _ & Hr & Hsucc & Hfail & _);
      [lia|done|lia|].
    assert (r = inr tt) as ->.
    { destruct Hr as [->| ->]; [done|].
      destruct (Hfail eq_refl) as [n Hn]. specialize (Hret n). lia. }
    assert (0 < len <= VCMTP_DATA_LEN) as Hlen by lia.
    pose proof (retx_data_frames_one_block _ _ _ _ _ _ _ Hlen
                  (Hsucc eq_refl)) as Hone.
    subst tframes.
    unfold retransmit. rewrite Hseq, Hpl. fold off len.
    rewrite (proj2 (Z.ltb_lt 0 len)) by lia.
    assert (off / VCMTP_DATA_LEN * VCMTP_DATA_LEN = off) as ->.
    { subst off. rewrite Z.div_mul by lia. done. }
    rewrite (wrap32_small off) by lia.
    rewrite (wrap32_small (off + len)) by lia.
    rewrite (wrap16_small VCMTP_DATA_LEN) by lia.
    assert (prodLength m2 = dataSize) as Hlenm.
    { rewrite Hlen2. by apply wrap32_small. }
    rewrite Hlenm.
    assert (MIN dataSize (off + len) = off + len) as ->.
    { unfold MIN. destruct (Z.leb_spec dataSize (off + len)); lia. }
    replace (off + len - off) with len by lia.
    rewrite (wrap32_small len) by lia.
    rewrite Heq. rewrite Hdp2, Hidx, Hpidx.
    unfold htonl at 2. rewrite (wrap32_small off) by lia.
    rewrite (read_bytes_ext mem mem' (data + off) len).
    + reflexivity.
    + intros i Hi. rewrite <- !Z.add_assoc. apply Hsame. lia.
Qed.

End MoreProperties.

(** * Properties of concrete runs *)

#[local] Existing Instance base1448.
#[local] Existing Instance qclock.

(** C5: a RETX_REQ for product 0 with [seqnum = 0] and
    [payloadlen = 2896] covers two blocks of a product of 2896 bytes
    whose first block is filled with 0x00 and second with 0x01.  The
    worker sends two RETX_DATA frames, both with [seqnum = 0] and both
    with the 1448 bytes of the first block: [start] is not advanced in
    the loop.  The bodies are 2896 bytes 0x00, not the product. *)
Theorem retransmit_repeats_first_block :
  RunRetxThread_step (Base := base1448) (λ _, 0) sent_2896 block_memory
    (Some retx_req_two_blocks) 5
  = Some (emit sent_2896
            [TcpSend 5 retx_data_first_block
               (DataPayload (repeat Byte.x00 1448));
             TcpSend 5 retx_data_first_block
               (DataPayload (repeat Byte.x00 1448))],
          inr tt) ∧
  prodLength <$> (sendMeta sent_2896 !! 0) = Some 2896 ∧
  read_bytes block_memory 4096 2896
  = repeat Byte.x00 1448 ++ repeat Byte.x01 1448 ∧
  repeat Byte.x00 1448 ++ repeat Byte.x00 1448
  ≠ read_bytes block_memory 4096 2896.
Proof.
  split_and!; try (vm_compute; reflexivity).
  intros Heq. apply (f_equal (λ l, l !! 1448%nat)) in Heq.
  vm_compute in Heq. discriminate Heq.
Qed.


Lemma RunRetxThread_rejects_unknown_product_witness :
  ∃ s',
    RunRetxThread_step (Base := base1448) (λ _, 0) sent_2896 block_memory
      (Some retx_req_unknown) 5 = Some (s', inr tt) ∧
    s' = emit sent_2896
           [TcpSend 5
              {| hdr_prodindex := 3; hdr_seqnum := 0; hdr_payloadlen := 0;
                 hdr_flags := 0x0010 |}
              NoPayload] ∧
    sendMeta s' = sendMeta sent_2896.
Proof.
  apply (RunRetxThread_rejects_unknown_product (Base := base1448)
           (λ _, 0) sent_2896 block_memory retx_req_unknown 5).
  - simpl. lia.
  - vm_compute. reflexivity.
  - left. reflexivity.
Defined.

Lemma RunRetxThread_retx_end_is_silent_witness :
  ∃ s' added,
    RunRetxThread_step (Base := base1448) (λ _, 0) sent_to_two block_memory
      (Some retx_end_0) 5 = Some (s', inr tt) ∧
    effects s' = effects sent_to_two ++ added ∧
    List.filter is_tcp_send added = [] ∧
    (sendMeta sent_to_two !! hdr_prodindex retx_end_0 = None →
     s' = sent_to_two).
Proof.
  apply (RunRetxThread_retx_end_is_silent (Base := base1448)
           (λ _, 0) sent_to_two block_memory retx_end_0 5).
  reflexivity.
Defined.


(** C9, as stated, fails: product 0 is sent with the three metadata
    bytes 0x11 at address 8192; the caller then overwrites them with
    0x22; the BOP retransmission that a BOP_REQ triggers carries 0x22,
    not the bytes of insertion time. *)
Lemma retransBOP_serves_mutated_metadata :
  sendProduct (Base := base1448) vcmtpSendv3_ctor1 metadata_before
    quiet_env 4096 4 8192 3 = Some (sent_with_metadata, inr 0) ∧
  read_bytes metadata_before 8192 3 = [Byte.x11; Byte.x11; Byte.x11] ∧
  RunRetxThread_step (Base := base1448) (λ _, 0) sent_with_metadata
    metadata_after (Some bop_req_0) 5
  = Some (emit sent_with_metadata
            [TcpSend 5
               {| hdr_prodindex := 0; hdr_seqnum := 0; hdr_payloadlen := 9;
                  hdr_flags := 0x0100 |}
               (BopPayload
                  {| bop_prodsize := 4; bop_metasize := 3;
                     bop_metadata := [Byte.x22; Byte.x22; Byte.x22] |})],
          inr tt) ∧
  [Byte.x22; Byte.x22; Byte.x22] ≠ read_bytes metadata_before 8192 3.
Proof. split_and!; try (vm_compute; reflexivity). discriminate. Qed.

Lemma retransBOP_serves_memory_at_cached_pointer_witness :
  0 <= 3 ∧ 8192 ≠ NULL ∧
  ∃ m,
    sendMeta sent_with_metadata !! 0 = Some m ∧
    metadata m = 8192 ∧
    metaSize m = 3 ∧
    ∀ (tcp_ret : nat → Z) (s2 : vcmtpSendv3) (mem' : memory)
      (recvheader : VcmtpHeader) (sock : Z),
      (∃ sendheader,
         effects (fst (retransBOP (Base := base1448) tcp_ret s2 mem'
                         recvheader m sock))
         = effects s2 ++
           [TcpSend sock sendheader
              (BopPayload
                 {| bop_prodsize := htonl (prodLength m);
                    bop_metasize := htons 3;
                    bop_metadata := read_bytes mem' 8192 3 |})]) ∧
      ((∀ i, 0 <= i < 3 → mem' (8192 + i) = metadata_before (8192 + i)) →
       read_bytes mem' 8192 3 = read_bytes metadata_before 8192 3).
Proof.
  assert (0 <= 3) as Hpos by lia.
  assert (8192 ≠ NULL) as Hptr by (unfold NULL; lia).
  split_and!; try assumption.
  apply (retransBOP_serves_memory_at_cached_pointer (Base := base1448)
           vcmtpSendv3_ctor1 metadata_before quiet_env 4096 4 8192 3
           sent_with_metadata 0 Hpos Hptr).
  vm_compute. reflexivity.
Defined.

(** * Further concrete runs *)

Lemma sendData_sends_product_in_blocks_witness :
  0 <= 3000 ∧
  (∀ n, env_udp_fails quiet_env n = false) ∧
  ∃ frames,
    sendData vcmtpSendv3_ctor1 block_memory quiet_env 4096 3000
      = Some (emit vcmtpSendv3_ctor1 frames, inr tt) ∧
    concat (map frame_payload frames) = read_bytes block_memory 4096 3000 ∧
    length frames = 3%nat.
Proof.
  assert (0 <= 3000) as Hsize by lia.
  assert (∀ n, env_udp_fails quiet_env n = false) as Hok by reflexivity.
  split_and!; try assumption.
  destruct (sendData_sends_product_in_blocks vcmtpSendv3_ctor1 block_memory
              quiet_env 4096 3000 Hsize Hok)
    as (frames & Hrun & _ & Hcat & Hlen).
  exists frames. split_and!; [exact Hrun|exact Hcat|].
  rewrite Hlen. reflexivity.
Defined.

Lemma sendProduct_multicasts_bop_data_eop_witness :
  0 <= 2896 ∧
  sendProduct vcmtpSendv3_ctor1 block_memory quiet_env 4096 2896 0 0
    = Some (sent_2896, inr 0) ∧
  ∃ frames,
    mem_data_frames block_memory 0 4096 0 2896 frames ∧
    concat (map frame_payload frames) = read_bytes block_memory 4096 2896.
Proof.
  assert (0 <= 2896) as Hsize by lia.
  assert (sendProduct vcmtpSendv3_ctor1 block_memory quiet_env 4096 2896 0 0
          = Some (sent_2896, inr 0)) as Hcall by (vm_compute; reflexivity).
  split_and!; try assumption.
  destruct (sendProduct_multicasts_bop_data_eop vcmtpSendv3_ctor1
              block_memory quiet_env 4096 2896 0 0 sent_2896 0 Hsize Hcall)
    as (frames & _ & Hframes & Hcat).
  by exists frames.
Defined.

Lemma sendProduct_bad_arguments_stop_the_sender_witness :
  bad_arguments NULL 3000 0 0 ∧
  ∃ s',
    sendProduct vcmtpSendv3_ctor1 block_memory quiet_env NULL 3000 0 0
      = Some (s', inl std_exception) ∧
    sendMeta s' = sendMeta (@vcmtpSendv3_ctor1 qclock) ∧
    dq_disabled (timerDelayQ s') = true.
Proof.
  assert (bad_arguments NULL 3000 0 0) as Hbad by (by left).
  split; [exact Hbad|].
  destruct (sendProduct_bad_arguments_stop_the_sender vcmtpSendv3_ctor1
              block_memory quiet_env NULL 3000 0 0 Hbad)
    as (s' & Hcall & Htbl & _ & _ & Hdis & _).
  exists s'. split_and!; [exact Hcall|exact Htbl|exact Hdis].
Defined.

Lemma sendProduct_inserts_entry_before_sending_witness :
  sendMeta (@vcmtpSendv3_ctor1 qclock)
    !! prodIndex (@vcmtpSendv3_ctor1 qclock) = None ∧
  0 <= 3000 ∧ 0 <= 0 ∧ ¬ bad_arguments 4096 3000 0 0 ∧
  ∃ s' r m,
    sendProduct vcmtpSendv3_ctor1 block_memory second_block_fails
      4096 3000 0 0 = Some (s', r) ∧
    sendMeta s' !! 0 = Some m ∧
    prodLength m = 3000 ∧
    dataprod_p m = 4096.
Proof.
  assert (sendMeta (@vcmtpSendv3_ctor1 qclock)
            !! prodIndex (@vcmtpSendv3_ctor1 qclock) = None) as Hfresh
    by reflexivity.
  assert (0 <= 3000) as Hsize by lia.
  assert (0 <= 0) as Hmeta by lia.
  assert (¬ bad_arguments 4096 3000 0 0) as Hgood.
  { unfold bad_arguments, NULL. simpl. lia. }
  split_and!; try assumption.
  destruct (sendProduct_inserts_entry_before_sending vcmtpSendv3_ctor1
              block_memory second_block_fails 4096 3000 0 0
              Hfresh Hsize Hmeta Hgood)
    as (s' & r & m & Hcall & Hm & _ & _ & Hlen & _ & _ & Hdp & _).
  exists s', r, m. split_and!; [exact Hcall|exact Hm|exact Hlen|exact Hdp].
Defined.

Lemma sendProducts_indices_consecutive_witness :
  0 <= prodIndex (@vcmtpSendv3_ctor1 qclock) < 2 ^ 32 ∧
  returned_indices (snd (sendProducts vcmtpSendv3_ctor1 good_bad_good))
  = [0; 1] ∧
  length (snd (sendProducts vcmtpSendv3_ctor1 good_bad_good)) = 3%nat.
Proof.
  assert (0 <= prodIndex (@vcmtpSendv3_ctor1 qclock) < 2 ^ 32) as Hrange
    by (simpl; lia).
  split; [exact Hrange|].
  destruct (sendProducts_indices_consecutive vcmtpSendv3_ctor1 good_bad_good
              Hrange) as (Hlen & _).
  split; [vm_compute; reflexivity|exact Hlen].
Defined.

Lemma retransmit_single_block_witness :
  0 < hdr_payloadlen retx_req_second_block ∧
  retransmit (λ _, 0) sent_2896 block_memory retx_req_second_block
    entry_2896 5
  = Some (emit sent_2896
            [TcpSend 5
               {| hdr_prodindex := 0; hdr_seqnum := 1448;
                  hdr_payloadlen := 1448; hdr_flags := 0x0040 |}
               (DataPayload (repeat Byte.x01 1448))],
          inr tt).
Proof.
  assert (0 < hdr_payloadlen retx_req_second_block) as Hpl by (simpl; lia).
  assert (0 <= hdr_seqnum retx_req_second_block) as Hseq by (simpl; lia).
  assert (hdr_seqnum retx_req_second_block
          + hdr_payloadlen retx_req_second_block < 2 ^ 32) as Hsum
    by (simpl; lia).
  assert (hdr_seqnum retx_req_second_block / VCMTP_DATA_LEN * VCMTP_DATA_LEN
          < Z.min (prodLength entry_2896)
                  (hdr_seqnum retx_req_second_block
                   + hdr_payloadlen retx_req_second_block)) as Hlt
    by (vm_compute; reflexivity).
  assert (Z.min (prodLength entry_2896)
                (hdr_seqnum retx_req_second_block
                 + hdr_payloadlen retx_req_second_block)
          - hdr_seqnum retx_req_second_block / VCMTP_DATA_LEN * VCMTP_DATA_LEN
          <= VCMTP_DATA_LEN) as Hblock
    by (vm_compute; discriminate).
  assert (0 <= (λ _ : nat, 0) (length (effects sent_2896))) as Hret
    by (simpl; lia).
  split; [exact Hpl|].
  rewrite (retransmit_single_block (λ _, 0) sent_2896 block_memory
             retx_req_second_block entry_2896 5 Hpl Hseq Hsum Hlt Hblock
             Hret).
  vm_compute. reflexivity.
Defined.

Lemma retransmit_reads_beyond_product_witness :
  0 < hdr_payloadlen retx_req_beyond ∧
  0 <= prodLength entry_2896 < 4344 ∧
  ∃ len rest r,
    0 < len <= 1448 ∧
    retransmit (λ _, 0) sent_2896 block_memory retx_req_beyond entry_2896 5
    = Some (emit sent_2896
              (TcpSend 5
                 {| hdr_prodindex := 0; hdr_seqnum := 4344;
                    hdr_payloadlen := len; hdr_flags := 0x0040 |}
                 (DataPayload (read_bytes block_memory (4096 + 4344) len))
               :: rest),
            r).
Proof.
  assert (0 < hdr_payloadlen retx_req_beyond) as Hpl by (simpl; lia).
  assert (0 <= hdr_seqnum retx_req_beyond < 2 ^ 32) as Hseq by (simpl; lia).
  assert (0 <= prodLength entry_2896 < 4344) as Hlen by (simpl; lia).
  split; [exact Hpl|]. split; [exact Hlen|].
  exact (retransmit_reads_beyond_product (λ _, 0) sent_2896 block_memory
           retx_req_beyond entry_2896 5 Hpl Hseq Hlen).
Defined.

Lemma RunRetxThread_requests_only_answer_witness :
  hdr_flags retx_req_second_block ≠ VCMTP_RETX_END ∧
  ∃ frames r,
    RunRetxThread_step (λ _, 0) sent_2896 block_memory
      (Some retx_req_second_block) 5 = Some (emit sent_2896 frames, r) ∧
    (r = inr tt ∨ r = inl runtime_error).
Proof.
  assert (hdr_flags retx_req_second_block ≠ VCMTP_RETX_END) as Hflag
    by (simpl; lia).
  split; [exact Hflag|].
  destruct (RunRetxThread_requests_only_answer (λ _, 0) sent_2896
              block_memory retx_req_second_block 5 Hflag)
    as (frames & r & Hrun & _ & Hr & _).
  by exists frames, r.
Defined.

Lemma RunRetxThread_answers_eop_request_witness :
  hdr_flags eop_req_0 = VCMTP_EOP_REQ ∧
  is_Some (sendMeta sent_2896 !! hdr_prodindex eop_req_0) ∧
  RunRetxThread_step (λ _, 0) sent_2896 block_memory (Some eop_req_0) 5
  = Some (emit sent_2896
            [TcpSend 5
               {| hdr_prodindex := 0; hdr_seqnum := 0; hdr_payloadlen := 0;
                  hdr_flags := 0x0400 |}
               NoPayload],
          inr tt).
Proof.
  assert (hdr_flags eop_req_0 = VCMTP_EOP_REQ) as Hflag by reflexivity.
  assert (is_Some (sendMeta sent_2896 !! hdr_prodindex eop_req_0)) as Hin
    by (vm_compute; eexists; reflexivity).
  split_and!; try assumption.
  exact (RunRetxThread_answers_eop_request (λ _, 0) sent_2896 block_memory
           eop_req_0 5 Hflag Hin).
Defined.

Lemma retransBOP_repeats_multicast_bop_witness :
  without_receivers <$> sendMeta sent_metadata_to_two_after_end !! 0
  = without_receivers <$> sendMeta sent_metadata_to_two !! 0 ∧
  unfinReceivers <$> sendMeta sent_metadata_to_two_after_end !! 0
  ≠ unfinReceivers <$> sendMeta sent_metadata_to_two !! 0 ∧
  ∃ bop_header bop r,
    UdpSend bop_header (BopPayload bop) ∈ effects sent_metadata_to_two ∧
    RunRetxThread_step (λ _, 0) sent_metadata_to_two_after_end
      metadata_before (Some bop_req_0) 6
    = Some (emit sent_metadata_to_two_after_end
              [TcpSend 6
                 {| hdr_prodindex := hdr_prodindex bop_header;
                    hdr_seqnum := hdr_seqnum bop_header;
                    hdr_payloadlen := hdr_payloadlen bop_header;
                    hdr_flags := htons VCMTP_RETX_BOP |}
                 (BopPayload bop)],
            r).
Proof.
  assert (0 <= 4) as Hsize by lia.
  assert (0 <= 3) as Hmeta by lia.
  assert (sendProduct vcmtpSendv3_ctor1 metadata_before two_receivers
            4096 4 8192 3 = Some (sent_metadata_to_two, inr 0)) as Hcall
    by (vm_compute; reflexivity).
  assert (without_receivers <$> sendMeta sent_metadata_to_two_after_end !! 0
          = without_receivers <$> sendMeta sent_metadata_to_two !! 0)
    as Hentry by (vm_compute; reflexivity).
  split; [exact Hentry|]. split; [vm_compute; discriminate|].
  destruct (retransBOP_repeats_multicast_bop vcmtpSendv3_ctor1
              metadata_before two_receivers 4096 4 8192 3
              sent_metadata_to_two 0
              (λ _, 0) sent_metadata_to_two_after_end metadata_before
              bop_req_0 6
              Hsize Hmeta Hcall eq_refl eq_refl Hentry (λ _ _, eq_refl))
    as (bop_header & bop & r & Hin & _ & Hrun).
  exists bop_header, bop, r. split; [exact Hin|exact Hrun].
Defined.

Lemma retransmit_repeats_multicast_block_witness :
  without_receivers <$> sendMeta sent_to_two_after_end !! 0
  = without_receivers <$> sendMeta sent_to_two !! 0 ∧
  unfinReceivers <$> sendMeta sent_to_two_after_end !! 0
  ≠ unfinReceivers <$> sendMeta sent_to_two !! 0 ∧
  ∃ data_header bytes,
    UdpSend data_header (DataPayload bytes) ∈ effects sent_to_two ∧
    RunRetxThread_step (λ _, 0) sent_to_two_after_end block_memory
      (Some retx_req_second_block) 6
    = Some (emit sent_to_two_after_end
              [TcpSend 6
                 {| hdr_prodindex := hdr_prodindex data_header;
                    hdr_seqnum := hdr_seqnum data_header;
                    hdr_payloadlen := hdr_payloadlen data_header;
                    hdr_flags := htons VCMTP_RETX_DATA |}
                 (DataPayload bytes)],
            inr tt).
Proof.
  assert (0 <= 3000) as Hsize by lia.
  assert (sendProduct (vcmtpSendv3_ctor2 0 true) block_memory two_receivers
            4096 3000 0 0 = Some (sent_to_two, inr 0)) as Hcall
    by (vm_compute; reflexivity).
  assert (Z.of_nat 1 * VCMTP_DATA_LEN < 3000) as Hk by (simpl; lia).
  assert (∀ n : nat, 0 <= (λ _ : nat, 0) n) as Hret by (intros; lia).
  assert (without_receivers <$> sendMeta sent_to_two_after_end !! 0
          = without_receivers <$> sendMeta sent_to_two !! 0)
    as Hentry by (vm_compute; reflexivity).
  split; [exact Hentry|]. split; [vm_compute; discriminate|].
  destruct (retransmit_repeats_multicast_block (vcmtpSendv3_ctor2 0 true)
              block_memory two_receivers 4096 3000 0 0 sent_to_two 0
              (λ _, 0) sent_to_two_after_end block_memory
              retx_req_second_block 6 1%nat
              Hsize Hcall Hk eq_refl eq_refl eq_refl eq_refl Hentry
              (λ _ _, eq_refl) Hret)
    as (data_header & bytes & Hin & _ & Hrun).
  exists data_header, bytes. split; [exact Hin|exact Hrun].
Defined.

Lemma run_without_notifier_calls_nothing_witness :
  notifier sent_2896 = false ∧
  effects (run sent_2896 end_then_timer) = effects sent_2896.
Proof.
  assert (notifier sent_2896 = false) as Hntf by (vm_compute; reflexivity).
  split; [exact Hntf|].
  exact (proj1 (run_without_notifier_calls_nothing sent_2896 end_then_timer
                  Hntf)).
Defined.

Lemma sendProduct2_checks_data_only_witness :
  0 <= 3000 ∧
  (∃ s', sendProduct2 vcmtpSendv3_ctor1 block_memory quiet_env NULL 3000
         = Some (s', inl std_exception)) ∧
  (∃ s', sendProduct2 vcmtpSendv3_ctor1 block_memory quiet_env 4096 3000
         = Some (s', inr 0)).
Proof.
  assert (0 <= 3000) as Hsize by lia.
  split; [exact Hsize|]. split.
  - destruct (sendProduct2_checks_data_only vcmtpSendv3_ctor1 block_memory
                quiet_env NULL 3000 Hsize) as (s' & r & Hrun & Hbad & _).
    exists s'. rewrite Hrun, (Hbad (or_introl eq_refl)). reflexivity.
  - destruct (sendProduct2_checks_data_only vcmtpSendv3_ctor1 block_memory
                quiet_env 4096 3000 Hsize) as (s' & r & Hrun & _ & Hgood & _).
    exists s'. rewrite Hrun, Hgood; [reflexivity| | | |].
    + unfold NULL. lia.
    + lia.
    + reflexivity.
    + reflexivity.
Defined.
